(** * go-chi/render: content negotiation and streaming responses

    A shallow embedding of the negotiation core of the [render] package:
    the ordered [ContentTypeSet] with its cursor (content_type.go), the
    responder and decoder registries with [SetResponder] / [SetDecoder]
    (responder.go, decoder.go), the responders [JSON], [XML] and
    [PlainText], the negotiator [DefaultResponder], and the two channel
    adapters [channelEventStream] and [channelIntoSlice].

    The response sink ([http.ResponseWriter]) is modelled by the ordered
    log of the calls made on it; a recorder interprets a log as the
    response an [httptest.ResponseRecorder] would show.  The codecs of the
    Go standard library ([mime.ParseMediaType], [encoding/json],
    [encoding/xml]) and the [renderer] helper are parameters of the
    development. *)

From Stdlib Require Import ZArith Lia List String Ascii Bool.
From stdpp Require Import base option list strings gmap sorting.

Local Open Scope string_scope.
Local Open Scope Z_scope.

Set Warnings "-register-all".

#[local] Arguments String.append : simpl nomatch.

(** ** Byte strings *)

(** The line feed and the double quote, which the frames and the XML
    declaration contain. *)
Definition nl : string := String (ascii_of_nat 10) EmptyString.
Definition dq : string := String (ascii_of_nat 34) EmptyString.

(** [len(s)] as a Go [int]. *)
Definition len (s : string) : Z := Z.of_nat (String.length s).

(** [strings.Split(s, sep)] for a separator of one byte: the fields
    between the separators, an empty string giving one empty field. *)
Fixpoint Split (s : string) (sep : ascii) : list string :=
  match s with
  | EmptyString => [EmptyString]
  | String c s' =>
      if Ascii.eqb c sep then EmptyString :: Split s' sep
      else match Split s' sep with
           | f :: fs => String c f :: fs
           | [] => [String c EmptyString]
           end
  end.

(** [bytes.Contains(b, sub)]: [sub] occurs in [b] at some offset. *)
Fixpoint Contains (b sub : string) : bool :=
  String.prefix sub b ||
  match b with
  | EmptyString => false
  | String _ b' => Contains b' sub
  end.

(** The slice expression [b[:n]] for [0 <= n <= len(b)]. *)
Definition slice_to (b : string) (n : Z) : string :=
  String.substring 0 (Z.to_nat n) b.

(** ** Go integers *)

(** [int] is 64 bits wide on the supported platforms; arithmetic wraps. *)
Definition int_min : Z := - 2 ^ 63.
Definition int_max : Z := 2 ^ 63 - 1.
Definition wrap_int (z : Z) : Z := (z + 2 ^ 63) mod 2 ^ 64 - 2 ^ 63.

(** ** Errors *)

(** Error values: the package sentinel [ErrCanNotEncodeObject], errors
    made by [errors.New] or by a codec, and [fmt.Errorf("prefix: %w", e)]
    wrappers. *)
Inductive error : Type :=
| ErrCanNotEncodeObject
| ErrNew (msg : string)
| ErrWrap (prefix : string) (inner : error).

(** [err.Error()]. *)
Fixpoint Error (e : error) : string :=
  match e with
  | ErrCanNotEncodeObject => "error can not encode object"
  | ErrNew msg => msg
  | ErrWrap p e' => p ++ ": " ++ Error e'
  end.

(** [errors.Is(e, ErrCanNotEncodeObject)]: the sentinel itself, or a
    wrapper around it. *)
Fixpoint Is_ErrCanNotEncodeObject (e : error) : bool :=
  match e with
  | ErrCanNotEncodeObject => true
  | ErrNew _ => false
  | ErrWrap _ e' => Is_ErrCanNotEncodeObject e'
  end.

(** The outcome of a call that may fail: Go's [(value, error)]. *)
Inductive result (A : Type) : Type :=
| Ok (a : A)
| Err (e : error).
Arguments Ok {A} a.
Arguments Err {A} e.

(** ** Content types *)

Definition ContentType : Type := string.

Definition ContentTypeNone : ContentType := "".
Definition ContentTypeDefault : ContentType := "*/*".
Definition ContentTypeJSON : ContentType := "application/json".
Definition ContentTypeData : ContentType := "application/octet-stream".
Definition ContentTypeForm : ContentType := "multipart/form-data".
Definition ContentTypeEventStream : ContentType := "text/event-stream".
Definition ContentTypeHTML : ContentType := "text/html".
Definition ContentTypePlainText : ContentType := "text/plain".
Definition ContentTypeXML : ContentType := "text/xml".

(** How a call ends: it returns, it panics, or it never returns (blocked
    in a select for ever, or out of the fuel given to a loop). *)
Inductive Outcome (A : Type) : Type :=
| Ret (a : A)
| Panic (msg : string)
| NoReturn.
Arguments Ret {A} a.
Arguments Panic {A} msg.
Arguments NoReturn {A}.

(** ** ContentTypeSet *)

Module CTS.

(** [type ContentTypeSet struct { set []ContentType; pos int }] *)
Record ContentTypeSet : Type := mk {
  set : list ContentType;
  pos : Z
}.

(** A [*ContentTypeSet]; [None] is the nil pointer. *)
Definition ptr : Type := option ContentTypeSet.

Definition size (s : ContentTypeSet) : Z := Z.of_nat (length (set s)).

(** [Next]: nil gives false; otherwise [pos++] and [pos < len(set)].
    The receiver is returned with its new cursor. *)
Definition Next (p : ptr) : bool * ptr :=
  match p with
  | None => (false, None)
  | Some s =>
      let s' := mk (set s) (wrap_int (pos s + 1)) in
      (bool_decide (pos s' < size s'), Some s')
  end.

(** [Reset]: the cursor goes back to -1. *)
Definition Reset (p : ptr) : ptr :=
  match p with
  | None => None
  | Some s => Some (mk (set s) (-1))
  end.

(** [Type]: nil gives the empty type; otherwise the cursor is clamped to
    [len-1] from above, else to 0 from below, and the slice is indexed,
    which panics out of range. *)
Definition Type_ (p : ptr) : Outcome ContentType :=
  match p with
  | None => Ret ContentTypeNone
  | Some s =>
      let p0 := pos s in
      let p1 := if bool_decide (p0 >= size s) then size s - 1
                else if bool_decide (p0 <= 0) then 0 else p0 in
      if bool_decide (0 <= p1 < size s)
      then match set s !! Z.to_nat p1 with
           | Some t => Ret t
           | None => Panic "index out of range"
           end
      else Panic "index out of range"
  end.

(** [Types]: a copy of the entries, empty for nil. *)
Definition Types (p : ptr) : list ContentType :=
  match p with
  | None => []
  | Some s => set s
  end.

(** [Has]: linear search, false for nil. *)
Definition Has (p : ptr) (contentType : ContentType) : bool :=
  match p with
  | None => false
  | Some s => existsb (String.eqb contentType) (set s)
  end.

(** [String]: the entries joined by commas. *)
Definition String_ (p : ptr) : string :=
  match p with
  | None => ""
  | Some s => String.concat "," (set s)
  end.

End CTS.

(** ** Values, requests and the response sink *)

(** What the type switches of the package see of a value that is no
    string, error, slice or channel: whether it is an
    [encoding.TextMarshaler] (with what [MarshalText] returns) and whether
    it is a [fmt.Stringer] (with what [String] returns). *)
Record Obj : Type := mkObj {
  obj_name : string;
  MarshalText : option (result string);
  Stringer : option string
}.

(** An [interface{}] as the responders inspect it.  A channel carries the
    items its producer sends, in order, and whether the producer closes it
    after the last one. *)
Inductive Value : Type :=
| VNil
| VString (s : string)
| VErr (e : error)
| VObj (o : Obj)
| VSlice (l : list Value)
| VChan (items : list Value) (closes : bool).

(** The part of [*http.Request] the package reads.  [ctxDone] describes
    the context: [None], it is never cancelled; [Some n], it is cancelled
    and the select of a channel adapter takes the [Done] case at its
    evaluation number [n] (counting from 0), or earlier if the channel is
    open and has nothing left to receive. *)
Record Request : Type := mkRequest {
  Header : gmap string string;
  ctxContentType : option ContentType;
  ctxStatus : option Z;
  ctxDone : option nat;
  ProtoMajor : Z;
  Body : string
}.

(** [r.Header.Get(key)] for a canonical key. *)
Definition Header_Get (r : Request) (key : string) : string :=
  default "" (Header r !! key).

(** The calls made on the [http.ResponseWriter], and the receives from a
    channel, in the order they happen. *)
Inductive Event : Type :=
| SetHeader (key value : string)
| DelHeader (key : string)
| WriteHeader (code : Z)
| Write (b : string)
| Flush
| Recv (v : Value).

(** The sink: whether it implements [http.Flusher], and its log. *)
Record ResponseWriter : Type := mkWriter {
  Flusher : bool;
  log : list Event
}.

(** Code that writes to the sink and may panic or block. *)
Definition M (A : Type) : Type := ResponseWriter -> ResponseWriter * Outcome A.

Definition ret {A} (a : A) : M A := fun w => (w, Ret a).

Definition bind {A B} (c : M A) (k : A -> M B) : M B :=
  fun w =>
    match c w with
    | (w', Ret a) => k a w'
    | (w', Panic msg) => (w', Panic msg)
    | (w', NoReturn) => (w', NoReturn)
    end.

Definition emit (es : list Event) : M unit :=
  fun w => (mkWriter (Flusher w) (log w ++ es), Ret tt).

Definition panic {A} (msg : string) : M A := fun w => (w, Panic msg).
Definition block {A} : M A := fun w => (w, NoReturn).

Definition lift {A} (o : Outcome A) : M A := fun w => (w, o).

Declare Scope go_scope.
Delimit Scope go_scope with go.
Notation "x <- c ;; k" := (bind c (fun x => k))
  (at level 100, c at next level, right associativity) : go_scope.
Notation "c ;; k" := (bind c (fun _ => k))
  (at level 100, right associativity) : go_scope.
Local Open Scope go_scope.

(** [if f, ok := w.(http.Flusher); ok { f.Flush() }] *)
Definition flush : M unit :=
  fun w => if Flusher w then emit [Flush] w else (w, Ret tt).

(** [http.Error(w, msg, code)] of net/http. *)
Definition http_Error (msg : string) (code : Z) : M unit :=
  emit [ DelHeader "Content-Length";
         SetHeader "Content-Type" "text/plain; charset=utf-8";
         SetHeader "X-Content-Type-Options" "nosniff";
         WriteHeader code;
         Write (msg ++ nl) ].

(** [setNosniff(w)] *)
Definition setNosniff : M unit :=
  emit [SetHeader "X-Content-Type-Options" "nosniff"].

(** [if status, ok := r.Context().Value(StatusCtxKey).(int); ok
     { w.WriteHeader(status) }] *)
Definition writeStatus (r : Request) : M unit :=
  match ctxStatus r with
  | Some status => emit [WriteHeader status]
  | None => ret tt
  end.

(** [encoding/xml.Header] *)
Definition xml_Header : string :=
  "<?xml version=" ++ dq ++ "1.0" ++ dq ++ " encoding=" ++ dq ++ "UTF-8"
  ++ dq ++ "?>" ++ nl.

(** The frames of the event stream. *)
Definition frame_timeout : string :=
  "event: error" ++ nl ++ "data: {" ++ dq ++ "error" ++ dq ++ ":" ++ dq
  ++ "Server Timeout" ++ dq ++ "}" ++ nl ++ nl.
Definition frame_EOF : string := "event: EOF" ++ nl ++ nl.
Definition frame_error (err : error) : string :=
  "event: error" ++ nl ++ "data: {" ++ dq ++ "error" ++ dq ++ ":" ++ dq
  ++ Error err ++ dq ++ "}" ++ nl ++ nl.
Definition frame_data (bytes : string) : string :=
  "event: data" ++ nl ++ "data: " ++ bytes ++ nl ++ nl.

(** A responder, [RespondFunc]; the registry holds func values, which may
    be nil ([None]). *)
Definition RespondFunc : Type := Request -> Value -> M (option error).

(** A decoder, [DecodeFunc]: the value decoded from the body (stored
    through the pointer the caller passes), or an error. *)
Definition DecodeFunc : Type := string -> result Value.

(** Calling a func value; a nil one panics. *)
Definition call (fn : option RespondFunc) (r : Request) (v : Value)
  : M (option error) :=
  match fn with
  | Some f => f r v
  | None => panic "invalid memory address or nil pointer dereference"
  end.

(** ** Sorting *)

(** [sort.Strings]: increasing byte-wise order. *)
Definition string_le (a b : string) : Prop := String.leb a b = true.

#[global] Instance string_le_dec (a b : string) : Decision (string_le a b).
Proof. unfold string_le. apply _. Defined.

Definition sort_Strings (l : list string) : list string :=
  merge_sort string_le l.

(** ** The recorder *)

(** What [httptest.ResponseRecorder] shows after a log: the status code
    and the headers as they were when the header was written (by the
    first [WriteHeader], or with 200 by the first [Write] or [Flush]), and
    all bytes written. *)
Record Response : Type := mkResponse {
  resp_Code : Z;
  resp_Header : gmap string string;
  resp_Body : string
}.

Record Recorder : Type := mkRecorder {
  HeaderMap : gmap string string;
  wroteHeader : option (Z * gmap string string);
  Written : string
}.

Definition snap (code : Z) (rw : Recorder) : option (Z * gmap string string) :=
  match wroteHeader rw with
  | Some s => Some s
  | None => Some (code, HeaderMap rw)
  end.

Definition record (rw : Recorder) (e : Event) : Recorder :=
  match e with
  | SetHeader k v => mkRecorder (<[k := v]> (HeaderMap rw)) (wroteHeader rw) (Written rw)
  | DelHeader k => mkRecorder (delete k (HeaderMap rw)) (wroteHeader rw) (Written rw)
  | WriteHeader code => mkRecorder (HeaderMap rw) (snap code rw) (Written rw)
  | Write b => mkRecorder (HeaderMap rw) (snap 200 rw) (Written rw ++ b)
  | Flush => mkRecorder (HeaderMap rw) (snap 200 rw) (Written rw)
  | Recv _ => rw
  end.

Definition NewRecorder : Recorder := mkRecorder ∅ None "".

Definition Result (es : list Event) : Response :=
  let rw := fold_left record es NewRecorder in
  match wroteHeader rw with
  | Some (code, h) => mkResponse code h (Written rw)
  | None => mkResponse 200 (HeaderMap rw) (Written rw)
  end.

(** The bodies a log writes, one per [Write]. *)
Definition writes (es : list Event) : list string :=
  omap (fun e => match e with Write b => Some b | _ => None end) es.

(** The status lines a log asks for, one per [WriteHeader]. *)
Definition statuses (es : list Event) : list Z :=
  omap (fun e => match e with WriteHeader c => Some c | _ => None end) es.

(** The items a log receives from a channel. *)
Definition received (es : list Event) : list Value :=
  omap (fun e => match e with Recv v => Some v | _ => None end) es.

(** ** Reference codecs *)

(** Instances of the external codecs, used to run the package on concrete
    requests.  [Ref.ParseMediaType] follows [mime.ParseMediaType] on ASCII
    input: the media type is the text before the first semicolon, in
    lower case and trimmed, and must be a token, or two tokens around a
    slash; the parameters after it must be well formed and not repeated
    with different values.  The encoders cover the values of the
    examples. *)
Module Ref.

Local Open Scope nat_scope.

Definition isSpace (c : ascii) : bool :=
  let n := nat_of_ascii c in (n =? 32) || ((9 <=? n) && (n <=? 13)).

Definition isTSpecial (c : ascii) : bool :=
  existsb (Ascii.eqb c) (list_ascii_of_string ("()<>@,;:\" ++ dq ++ "/[]?=")).

Definition isTokenChar (c : ascii) : bool :=
  let n := nat_of_ascii c in (32 <? n) && (n <? 127) && negb (isTSpecial c).

Definition toLower (c : ascii) : ascii :=
  let n := nat_of_ascii c in
  if (65 <=? n) && (n <=? 90) then ascii_of_nat (n + 32) else c.

Fixpoint trimLeft (v : list ascii) : list ascii :=
  match v with
  | c :: v' => if isSpace c then trimLeft v' else v
  | [] => []
  end.

Definition trimSpace (v : list ascii) : list ascii :=
  rev (trimLeft (rev (trimLeft v))).

Fixpoint consumeToken (v : list ascii) : list ascii * list ascii :=
  match v with
  | c :: v' =>
      if isTokenChar c
      then let '(t, rest) := consumeToken v' in (c :: t, rest)
      else ([], v)
  | [] => ([], [])
  end.

(** [strings.Cut(v, ";")]: the text before the first semicolon, and the
    text from that semicolon on. *)
Fixpoint cutBase (v : list ascii) : list ascii * list ascii :=
  match v with
  | c :: v' =>
      if Ascii.eqb c ";" then ([], v)
      else let '(b, rest) := cutBase v' in (c :: b, rest)
  | [] => ([], [])
  end.

Definition checkMediaTypeDisposition (s : list ascii) : bool :=
  let '(typ, rest) := consumeToken s in
  match typ, rest with
  | [], _ => false
  | _, [] => true
  | _, c :: rest' =>
      if Ascii.eqb c "/" then
        match consumeToken rest' with
        | (_ :: _, []) => true
        | _ => false
        end
      else false
  end.

(** The quoted string after an opening quote: its value and the text
    after the closing quote. *)
Fixpoint consumeQuoted (v buffer : list ascii)
  : option (list ascii * list ascii) :=
  match v with
  | [] => None
  | c :: v' =>
      if Ascii.eqb c (ascii_of_nat 34) then Some (rev buffer, v')
      else if Ascii.eqb c "\" then
        match v' with
        | c2 :: v'' =>
            if isTSpecial c2 then consumeQuoted v'' (c2 :: buffer)
            else consumeQuoted v' (c :: buffer)
        | [] => consumeQuoted v' (c :: buffer)
        end
      else if (nat_of_ascii c =? 13) || (nat_of_ascii c =? 10) then None
      else consumeQuoted v' (c :: buffer)
  end.

(** [consumeValue]: [None] when nothing was consumed. *)
Definition consumeValue (v : list ascii) : option (list ascii * list ascii) :=
  match v with
  | [] => None
  | c :: v' =>
      if Ascii.eqb c (ascii_of_nat 34) then consumeQuoted v' []
      else match consumeToken v with
           | ([], _) => None
           | tr => Some tr
           end
  end.

(** [consumeMediaParam]: key, value and rest, [None] for an empty key. *)
Definition consumeMediaParam (v : list ascii)
  : option (list ascii * list ascii * list ascii) :=
  match trimLeft v with
  | c :: rest =>
      if Ascii.eqb c ";" then
        match consumeToken (trimLeft rest) with
        | ([], _) => None
        | (param, rest) =>
            match trimLeft rest with
            | c' :: rest =>
                if Ascii.eqb c' "=" then
                  match consumeValue (trimLeft rest) with
                  | Some (value, rest) => Some (map toLower param, value, rest)
                  | None => None
                  end
                else None
            | [] => None
            end
        end
      else None
  | [] => None
  end.

(** The loop over the parameters: true when all of them are accepted. *)
Fixpoint params (fuel : nat) (v : list ascii)
  (seen : list (list ascii * list ascii)) : bool :=
  match fuel with
  | O => true
  | S fuel' =>
      match trimLeft v with
      | [] => true
      | v1 =>
          match consumeMediaParam v1 with
          | None =>
              match trimSpace v1 with
              | [c] => Ascii.eqb c ";"
              | _ => false
              end
          | Some (key, value, rest) =>
              match List.find (fun kv => bool_decide (fst kv = key)) seen with
              | Some (_, value') =>
                  bool_decide (value' = value) && params fuel' rest seen
              | None => params fuel' rest ((key, value) :: seen)
              end
          end
      end
  end.

Definition ParseMediaType (v : string) : option string :=
  let '(base, rest) := cutBase (list_ascii_of_string v) in
  let mediatype := trimSpace (map toLower base) in
  if checkMediaTypeDisposition mediatype && params (S (length rest)) rest []
  then Some (string_of_list_ascii mediatype)
  else None.

(** A JSON string literal, for text that needs no escape. *)
Definition quote (s : string) : string := (dq ++ s ++ dq)%string.

(** [json.Marshal] on the values of the examples; a channel is not
    supported by [encoding/json]. *)
Fixpoint json_Marshal (v : Value) : result string :=
  match v with
  | VNil => Ok "null"%string
  | VString s => Ok (quote s)
  | VErr _ => Ok "{}"%string
  | VObj o =>
      match MarshalText o with
      | Some (Ok t) => Ok (quote t)
      | Some (Err e) => Err (ErrWrap "json: error calling MarshalText" e)
      | None => Ok "{}"%string
      end
  | VSlice l =>
      let step (acc : result (list string)) (x : Value) : result (list string) :=
        match acc, json_Marshal x with
        | Ok ss, Ok s => Ok (ss ++ [s])%list
        | Err e, _ => Err e
        | _, Err e => Err e
        end in
      match fold_left step l (Ok []) with
      | Ok ss => Ok ("[" ++ String.concat "," ss ++ "]")%string
      | Err e => Err e
      end
  | VChan _ _ => Err (ErrNew "json: unsupported type: chan interface {}")
  end.

(** [Encoder.Encode]: the marshalled value and a line feed. *)
Definition json_Encode (v : Value) : result string :=
  match json_Marshal v with
  | Ok s => Ok (s ++ nl)%string
  | Err e => Err e
  end.

(** [xml.Marshal] on strings, and on text marshalers whose text is
    their own document; nothing else is supported here. *)
Definition xml_Marshal (v : Value) : result string :=
  match v with
  | VString s => Ok ("<string>" ++ s ++ "</string>")%string
  | VObj o =>
      match MarshalText o with
      | Some (Ok t) => Ok t
      | Some (Err e) => Err e
      | None => Err (ErrNew "xml: unsupported type")
      end
  | _ => Err (ErrNew "xml: unsupported type")
  end.

(** The decoders of the examples hand the body over as a string. *)
Definition json_Decode (body : string) : result Value := Ok (VString body).
Definition xml_Decode (body : string) : result Value := Ok (VString body).

(** No value of the examples implements [Renderer], except the objects
    named [renderer], which write their text to the sink. *)
Definition renderer (r : Request) (v : Value)
  : option (list Event * option error) :=
  match v with
  | VObj o =>
      if String.eqb (obj_name o) "renderer"
      then Some ([Write (default ""%string (Stringer o))], None)
      else None
  | _ => None
  end.

End Ref.

(** ** Requests and values of the examples *)

Module Ex.

(** A GET over HTTP/1.1 with the given Accept header, status hint and
    cancellation. *)
Definition request (accept : string) (status : option Z) (done : option nat)
  : Request :=
  mkRequest {[ "Accept" := accept ]} None status done 1 "".

(** A request without Accept header. *)
Definition bare : Request := mkRequest ∅ None None None 1 "".

(** A sink that has seen nothing yet and can flush, as a recorder. *)
Definition recorder : ResponseWriter := mkWriter true [].

(** A struct with no method: no string, stringer or text marshaler. *)
Definition plainStruct : Value := VObj (mkObj "struct" None None).

(** A value that marshals to a document with its own declaration. *)
Definition ownDeclaration : Value :=
  VObj (mkObj "document" (Some (Ok (xml_Header ++ "<a></a>"))) None).

(** A channel of three strings that its producer closes. *)
Definition threeItems : Value :=
  VChan [VString "1"; VString "2"; VString "3"] true.

End Ex.

(** ** The package over its codecs *)

Section Render.

Set Default Proof Using "Type".

(** [mime.ParseMediaType], reduced to what its callers here keep: the
    media type in lower case without its parameters, or a failure. *)
Variable ParseMediaType : string -> option string.

(** The loop of [NewContentTypeSet]: a field that does not parse is
    skipped, a type already in the set is skipped, anything else is
    appended. *)
Fixpoint allTypes (types : list string) (acc : list ContentType)
  : list ContentType :=
  match types with
  | [] => acc
  | t :: rest =>
      match ParseMediaType t with
      | None => allTypes rest acc
      | Some mediaType =>
          if existsb (String.eqb mediaType) acc
          then allTypes rest acc
          else allTypes rest (acc ++ [mediaType])
      end
  end.

(** [NewContentTypeSet(types...)]: nil for no argument and for an empty
    result, else the set with its cursor at -1. *)
Definition NewContentTypeSet (types : list string) : CTS.ptr :=
  match types with
  | [] => None
  | _ =>
      match allTypes types [] with
      | [] => None
      | l => Some (CTS.mk l (-1))
      end
  end.

(** ** The codecs and the renderer *)

(** [json.NewEncoder(buf)] with [SetEscapeHTML(true)], then [Encode(v)]:
    the bytes left in the buffer, or the error. *)
Variable json_Encode : Value -> result string.
(** [json.Marshal(v)] *)
Variable json_Marshal : Value -> result string.
(** [xml.Marshal(v)] *)
Variable xml_Marshal : Value -> result string.
(** [json.NewDecoder(r).Decode(v)] and [xml.NewDecoder(r).Decode(v)] *)
Variable json_Decode : string -> result Value.
Variable xml_Decode : string -> result Value.
(** [renderer(w, r, rv)] for a value that implements [Renderer]: what it
    writes to the sink and the error it returns; [None] for a value that
    does not implement [Renderer]. *)
Variable renderer : Request -> Value -> option (list Event * option error).

(** ** Requests *)

(** [GetContentType(str)] *)
Definition GetContentType (str : string) : result ContentType :=
  match ParseMediaType str with
  | Some mediaType => Ok mediaType
  | None => Err (ErrNew "mime: invalid media type")
  end.

(** [GetRequestContentType(r, dflt)]: the context value when it is set
    and not empty, else the parsed Content-Type header, else [dflt]. *)
Definition GetRequestContentType (r : Request) (dflt : ContentType)
  : ContentType :=
  match ctxContentType r with
  | Some contentType =>
      if negb (String.eqb contentType "") then contentType
      else match GetContentType (Header_Get r "Content-Type") with
           | Ok ct => ct
           | Err _ => dflt
           end
  | None =>
      match GetContentType (Header_Get r "Content-Type") with
      | Ok ct => ct
      | Err _ => dflt
      end
  end.

(** [GetAcceptedContentType(r)]: the context value when it is set, else
    the fields of the Accept header. *)
Definition GetAcceptedContentType (r : Request) : CTS.ptr :=
  match ctxContentType r with
  | Some contentType => NewContentTypeSet [contentType]
  | None => NewContentTypeSet (Split (Header_Get r "Accept") ",")
  end.

(** ** Responders *)

(** [PlainText(w, r, v)] *)
Definition PlainText : RespondFunc := fun r v =>
  let respond (txt : string) : M (option error) :=
    setNosniff ;;
    emit [SetHeader "Content-Type" "text/plain; charset=utf-8"] ;;
    writeStatus r ;;
    emit [Write txt] ;;
    ret None in
  match v with
  | VString vv => respond vv
  | VObj o =>
      match MarshalText o, Stringer o with
      | Some (Err err), _ => ret (Some err)
      | Some (Ok btxt), _ => respond btxt
      | None, Some txt => respond txt
      | None, None => ret (Some ErrCanNotEncodeObject)
      end
  | _ => ret (Some ErrCanNotEncodeObject)
  end.

(** [JSON(w, r, v)]: the value is encoded into a buffer first. *)
Definition JSON : RespondFunc := fun r v =>
  match json_Encode v with
  | Err err => ret (Some (ErrWrap "JSON encode" err))
  | Ok buf =>
      setNosniff ;;
      emit [SetHeader "Content-Type" "application/json; charset=utf-8"] ;;
      writeStatus r ;;
      emit [Write buf] ;;
      ret None
  end.

(** [XML(w, r, v)]: the declaration is written first unless the first
    100 bytes of the marshalled value contain one. *)
Definition XML : RespondFunc := fun r v =>
  match xml_Marshal v with
  | Err err => ret (Some (ErrWrap "XML marshal" err))
  | Ok b =>
      setNosniff ;;
      emit [SetHeader "Content-Type" "application/xml; charset=utf-8"] ;;
      writeStatus r ;;
      let findHeaderUntil := if bool_decide (len b > 100) then 100 else len b in
      (if negb (Contains (slice_to b findHeaderUntil) "<?xml")
       then emit [Write xml_Header] else ret tt) ;;
      emit [Write b] ;;
      ret None
  end.

(** ** Channel adapters *)

(** The item of a channel after the [Renderer] step: a renderer is run
    against the sink, and its error replaces the item. *)
Definition renderItem (r : Request) (v : Value) : M Value :=
  match renderer r v with
  | None => ret v
  | Some (es, None) => emit es ;; ret v
  | Some (es, Some err) => emit es ;; ret (VErr err)
  end.

(** The step of a countdown of select evaluations. *)
Definition tick (done : option nat) : option nat :=
  match done with
  | Some n => Some (Nat.pred n)
  | None => None
  end.

(** The select loop of [channelEventStream].  Each evaluation takes the
    [Done] case when the countdown has run out, else receives the next
    item; with no item left it sees the channel closed, or waits for the
    context, for ever if that is never cancelled. *)
Fixpoint eventLoop (r : Request) (items : list Value) (closes : bool)
  (done : option nat) : M (option error) :=
  match done, items with
  | Some O, _ => emit [Write frame_timeout] ;; ret None
  | _, v :: rest =>
      emit [Recv v] ;;
      v' <- renderItem r v ;;
      match json_Marshal v' with
      | Err err =>
          emit [Write (frame_error err)] ;; flush ;;
          eventLoop r rest closes (tick done)
      | Ok bytes =>
          emit [Write (frame_data bytes)] ;; flush ;;
          eventLoop r rest closes (tick done)
      end
  | Some (S _), [] =>
      if closes then emit [Write frame_EOF] ;; ret None
      else emit [Write frame_timeout] ;; ret None
  | None, [] =>
      if closes then emit [Write frame_EOF] ;; ret None
      else block
  end.

(** [channelEventStream(w, r, v)] *)
Definition channelEventStream : RespondFunc := fun r v =>
  match v with
  | VChan items closes =>
      emit [SetHeader "Content-Type" "text/event-stream; charset=utf-8";
            SetHeader "Cache-Control" "no-cache"] ;;
      (if bool_decide (ProtoMajor r = 1)
       then emit [SetHeader "Connection" "keep-alive"] else ret tt) ;;
      emit [WriteHeader 200] ;;
      eventLoop r items closes (ctxDone r)
  | _ => panic "render: event stream expects a channel, not another kind"
  end.

(** The select loop of [channelIntoSlice], with the slice [to] built so
    far. *)
Fixpoint sliceLoop (r : Request) (items : list Value) (closes : bool)
  (done : option nat) (to : list Value) : M Value :=
  match done, items with
  | Some O, _ => http_Error "Server Timeout" 504 ;; ret VNil
  | _, v :: rest =>
      emit [Recv v] ;;
      v' <- renderItem r v ;;
      sliceLoop r rest closes (tick done) (to ++ [v'])
  | Some (S _), [] =>
      if closes then ret (VSlice to)
      else http_Error "Server Timeout" 504 ;; ret VNil
  | None, [] =>
      if closes then ret (VSlice to) else block
  end.

(** [channelIntoSlice(w, r, from)] *)
Definition channelIntoSlice (r : Request) (from : Value) : M Value :=
  match from with
  | VChan items closes => sliceLoop r items closes (ctxDone r) []
  | _ => panic "reflect.Select: RecvDir case using a value that is not a channel"
  end.

(** ** Registries *)

(** [respondMapper] as the package initialises it. *)
Definition respondMapper : gmap ContentType (option RespondFunc) :=
  <[ContentTypeDefault := Some JSON]>
    (<[ContentTypeJSON := Some JSON]>
       (<[ContentTypeXML := Some XML]>
          (<[ContentTypeEventStream := Some channelEventStream]> ∅))).

(** [SetResponder(contentType, responder)]: [respondMapper[contentType]
    = responder]. *)
Definition SetResponder (contentType : ContentType)
  (responder : option RespondFunc)
  (m : gmap ContentType (option RespondFunc))
  : gmap ContentType (option RespondFunc) :=
  <[contentType := responder]> m.

(** [SupportedResponders()]: the keys of the map, sorted, through
    [NewContentTypeSet]. *)
Definition SupportedResponders (m : gmap ContentType (option RespondFunc))
  : CTS.ptr :=
  NewContentTypeSet (sort_Strings (map_to_list m).*1).

(** [DecodeJSON] and [DecodeXML] *)
Definition DecodeJSON : DecodeFunc := json_Decode.
Definition DecodeXML : DecodeFunc := xml_Decode.

(** [decodeMapper] as the package initialises it. *)
Definition decodeMapper : gmap ContentType (option DecodeFunc) :=
  <[ContentTypeJSON := Some DecodeJSON]>
    (<[ContentTypeXML := Some DecodeXML]> ∅).

(** [SetDecoder(contentType, decoder)] *)
Definition SetDecoder (contentType : ContentType)
  (decoder : option DecodeFunc)
  (m : gmap ContentType (option DecodeFunc))
  : gmap ContentType (option DecodeFunc) :=
  <[contentType := decoder]> m.

(** [SupportedDecoders()] *)
Definition SupportedDecoders (m : gmap ContentType (option DecodeFunc))
  : CTS.ptr :=
  NewContentTypeSet (sort_Strings (map_to_list m).*1).

(** [DefaultDecoder(r, v)]: the decoder of the request content type when
    the map holds one that is not nil, else an error. *)
Definition DefaultDecoder (m : gmap ContentType (option DecodeFunc))
  (r : Request) : result Value :=
  let ct := GetRequestContentType r ContentTypeNone in
  match default None (m !! ct) with
  | Some decoder => decoder (Body r)
  | None =>
      Err (ErrNew ("render: unable to automatically decode the request content type: '"
                   ++ ct ++ "'"))
  end.

(** ** Negotiation *)

(** [if err != nil { http.Error(w, err.Error(), 500) }] *)
Definition reportError (err : option error) : M unit :=
  match err with
  | Some e => http_Error (Error e) 500
  | None => ret tt
  end.

(** The tail of [DefaultResponder]: the responder of the default type. *)
Definition respondDefault (m : gmap ContentType (option RespondFunc))
  (r : Request) (v : Value) : M unit :=
  err <- call (default None (m !! ContentTypeDefault)) r v ;;
  reportError err.

(** The loop [for acceptedTypes.Next() { ... }] of [DefaultResponder]
    followed by the default responder; [fuel] bounds the iterations. *)
Fixpoint negotiate (fuel : nat) (m : gmap ContentType (option RespondFunc))
  (r : Request) (v : Value) (acceptedTypes : CTS.ptr) : M unit :=
  match fuel with
  | O => block
  | S fuel' =>
      let '(more, acceptedTypes') := CTS.Next acceptedTypes in
      if more then
        t <- lift (CTS.Type_ acceptedTypes') ;;
        if String.eqb t ContentTypeEventStream
        then negotiate fuel' m r v acceptedTypes'
        else
          match m !! t with
          | Some fn =>
              err <- call fn r v ;;
              match err with
              | Some e =>
                  if Is_ErrCanNotEncodeObject e
                  then negotiate fuel' m r v acceptedTypes'
                  else http_Error (Error e) 500
              | None => ret tt
              end
          | None => negotiate fuel' m r v acceptedTypes'
          end
      else respondDefault m r v
  end.

(** [DefaultResponder(w, r, v)].  A channel goes to the responder of the
    event stream when the client accepts it, and is buffered into a
    slice otherwise; then the accepted types are walked.  The read lock
    is not modelled, except for the [Unlock] of line 152, which is fatal
    on a mutex that is only read-locked. *)
Definition DefaultResponder (m : gmap ContentType (option RespondFunc))
  (r : Request) (v : Value) : M unit :=
  let acceptedTypes := GetAcceptedContentType r in
  let walk (v : Value) : M unit :=
    negotiate (S (length (CTS.Types acceptedTypes))) m r v acceptedTypes in
  match v with
  | VChan _ _ =>
      if CTS.Has acceptedTypes ContentTypeEventStream then
        match m !! ContentTypeEventStream with
        | Some fn => err <- call fn r v ;; reportError err
        | None => panic "fatal error: sync: Unlock of unlocked RWMutex"
        end
      else
        v' <- channelIntoSlice r v ;;
        walk v'
  | _ => walk v
  end.


(** ** The rest of content_type.go *)

(** The loop of [SetOfContentTypes]: a type already in the set is
    skipped, anything else is appended. *)
Fixpoint allOfTypes (types : list ContentType) (acc : list ContentType)
  : list ContentType :=
  match types with
  | [] => acc
  | t :: rest =>
      if existsb (String.eqb t) acc
      then allOfTypes rest acc
      else allOfTypes rest (acc ++ [t])
  end.

(** [SetOfContentTypes(types...)]: nil for no argument, else the set of
    the arguments with its cursor at -1. *)
Definition SetOfContentTypes (types : list ContentType) : CTS.ptr :=
  match types with
  | [] => None
  | _ =>
      match allOfTypes types [] with
      | [] => None
      | l => Some (CTS.mk l (-1))
      end
  end.

(** [set.StringHas(mediaType)]: [Has] on the parsed media type, false
    when it does not parse. *)
Definition StringHas (set : CTS.ptr) (mediaType : string) : bool :=
  match ParseMediaType mediaType with
  | None => false
  | Some ct => CTS.Has set ct
  end.

(** [ContentTypeFromString(mediaType)] *)
Definition ContentTypeFromString (mediaType : string) : result ContentType :=
  match ParseMediaType mediaType with
  | Some mt => Ok mt
  | None => Err (ErrNew "mime: invalid media type")
  end.

(** [contentType.Is(mimeType)]: the parsed media type is this one; false
    when [mimeType] does not parse. *)
Definition Is (contentType : ContentType) (mimeType : string) : bool :=
  match ParseMediaType mimeType with
  | None => false
  | Some mediaType => String.eqb contentType mediaType
  end.

(** An [http.Handler], run against the sink. *)
Definition Handler : Type := Request -> M unit.

(** [r.WithContext(context.WithValue(r.Context(), ContentTypeCtxKey,
    contentType))] *)
Definition withContentType (contentType : ContentType) (r : Request) : Request :=
  mkRequest (Header r) (Some contentType) (ctxStatus r) (ctxDone r)
            (ProtoMajor r) (Body r).

(** [SetContentType(contentType)(next)]: the next handler serves the
    request with the content type in its context. *)
Definition SetContentType (contentType : ContentType) (next : Handler)
  : Handler :=
  fun r => next (withContentType contentType r).

(** ** The rest of responder.go *)

(** [Status(r, status)]: the request with the status in its context. *)
Definition Status (r : Request) (status : Z) : Request :=
  mkRequest (Header r) (ctxContentType r) (Some status) (ctxDone r)
            (ProtoMajor r) (Body r).

(** [HTML(w, r, v)] *)
Definition HTML : RespondFunc := fun r v =>
  let respond (txt : string) : M (option error) :=
    setNosniff ;;
    emit [SetHeader "Content-Type" "text/html; charset=utf-8"] ;;
    writeStatus r ;;
    emit [Write txt] ;;
    ret None in
  match v with
  | VString vv => respond vv
  | VObj o =>
      match MarshalText o, Stringer o with
      | Some (Err err), _ => ret (Some err)
      | Some (Ok btxt), _ => respond btxt
      | None, Some txt => respond txt
      | None, None => ret (Some ErrCanNotEncodeObject)
      end
  | _ => ret (Some ErrCanNotEncodeObject)
  end.

(** [NoContent(w, r)] *)
Definition NoContent : Handler := fun _ => emit [WriteHeader 204].

(** * Vocabulary of the statements *)

(** The writer after more events. *)
Definition after (w : ResponseWriter) (es : list Event) : ResponseWriter :=
  mkWriter (Flusher w) (log w ++ es).

(** What [writeStatus] adds to the log. *)
Definition statusEvents (r : Request) : list Event :=
  match ctxStatus r with
  | Some status => [WriteHeader status]
  | None => []
  end.

(** What [flush] adds to the log. *)
Definition flushEvents (w : ResponseWriter) : list Event :=
  if Flusher w then [Flush] else [].

(** What [JSON] writes for a value whose encoding is [buf]. *)
Definition jsonEvents (r : Request) (buf : string) : list Event :=
  [SetHeader "X-Content-Type-Options" "nosniff";
   SetHeader "Content-Type" "application/json; charset=utf-8"]
  ++ statusEvents r ++ [Write buf].

(** An XML declaration lies within the first 100 bytes of [b]. *)
Definition has_declaration (b : string) : Prop :=
  exists pre post,
    b = pre ++ "<?xml" ++ post /\ (String.length pre + 5 <= 100)%nat.

(** What [XML] writes before the body. *)
Definition xmlHead (r : Request) : list Event :=
  [SetHeader "X-Content-Type-Options" "nosniff";
   SetHeader "Content-Type" "application/xml; charset=utf-8"]
  ++ statusEvents r.

(** A Go slice: its length is an [int]. *)
Definition is_slice {A : Type} (l : list A) : Prop :=
  Z.of_nat (length l) <= int_max.

(** The receiver after [n] calls of [Next]. *)
Fixpoint nexts (n : nat) (p : CTS.ptr) : CTS.ptr :=
  match n with
  | O => p
  | S n' => nexts n' (snd (CTS.Next p))
  end.

(** The entries of a list in the order of their first occurrence, each
    one once. *)
Fixpoint first_occurrences (l : list string) : list string :=
  match l with
  | [] => []
  | x :: l' => x :: filter (fun y => y <> x) (first_occurrences l')
  end.

(** The fields of the Accept header, and the media types of those that
    parse. *)
Definition acceptFields (r : Request) : list string :=
  Split (Header_Get r "Accept") ",".
Definition acceptParsed (r : Request) : list ContentType :=
  omap ParseMediaType (acceptFields r).

(** The walk of [DefaultResponder] over the accepted types, written
    over the list of the types still to try. *)
Fixpoint walkTypes (m : gmap ContentType (option RespondFunc))
  (r : Request) (v : Value) (types : list ContentType) : M unit :=
  match types with
  | [] => respondDefault m r v
  | t :: rest =>
      if String.eqb t ContentTypeEventStream then walkTypes m r v rest
      else
        match m !! t with
        | Some fn =>
            err <- call fn r v ;;
            match err with
            | Some e =>
                if Is_ErrCanNotEncodeObject e
                then walkTypes m r v rest
                else http_Error (Error e) 500
            | None => ret tt
            end
        | None => walkTypes m r v rest
        end
  end.

(** [reflect.TypeOf(v).Kind() == reflect.Chan] for a [v] that is not
    nil. *)
Definition isChan (v : Value) : bool :=
  match v with
  | VChan _ _ => true
  | _ => false
  end.

(** No type of the list has an entry in the registry. *)
Definition unregistered (m : gmap ContentType (option RespondFunc))
  (types : list ContentType) : Prop :=
  Forall (fun t => m !! t = None) types.

(** A value that is no string, no [fmt.Stringer] and no
    [encoding.TextMarshaler]. *)
Definition notText (v : Value) : Prop :=
  match v with
  | VString _ => False
  | VObj o => MarshalText o = None /\ Stringer o = None
  | _ => True
  end.

(** The item after the [Renderer] step, and what that step writes. *)
Definition rendered (r : Request) (v : Value) : Value :=
  match renderer r v with
  | Some (_, Some err) => VErr err
  | _ => v
  end.
Definition renderEvents (r : Request) (v : Value) : list Event :=
  match renderer r v with
  | Some (es, _) => es
  | None => []
  end.

(** The frame of an item: a data frame with its JSON encoding, or an
    error frame when the encoding fails. *)
Definition itemFrame (v : Value) : string :=
  match json_Marshal v with
  | Ok bytes => frame_data bytes
  | Err err => frame_error err
  end.

(** What the event stream does with one item: the receive, the
    renderer, the frame, the flush of a sink that can flush. *)
Definition itemEvents (r : Request) (fl : bool) (v : Value) : list Event :=
  Recv v :: renderEvents r v
  ++ [Write (itemFrame (rendered r v))] ++ (if fl then [Flush] else []).

(** What buffering does with one item. *)
Definition bufferEvents (r : Request) (v : Value) : list Event :=
  Recv v :: renderEvents r v.

(** The headers and the status of the event stream. *)
Definition streamHead (r : Request) : list Event :=
  [SetHeader "Content-Type" "text/event-stream; charset=utf-8";
   SetHeader "Cache-Control" "no-cache"]
  ++ (if bool_decide (ProtoMajor r = 1)
      then [SetHeader "Connection" "keep-alive"] else [])
  ++ [WriteHeader 200].

(** The items received before the select loop ends: all of them, or
    those before the select takes the [Done] case. *)
Definition consumed (done : option nat) (items : list Value) : list Value :=
  match done with
  | Some n => take n items
  | None => items
  end.

(** How the select loop ends: the select takes the [Done] case of the
    cancelled context ([Some true]), it sees the channel closed by the
    producer ([Some false]), or neither ever happens ([None]). *)
Definition loopEnd (done : option nat) (items : list Value) (closes : bool)
  : option bool :=
  match done with
  | Some n =>
      if (n <=? length items)%nat then Some true
      else if closes then Some false else Some true
  | None => if closes then Some false else None
  end.

(** The terminal frame of the event stream. *)
Definition terminalFrame (cancelled : bool) : string :=
  if cancelled then frame_timeout else frame_EOF.

(** What [http.Error] writes. *)
Definition errorEvents (msg : string) (code : Z) : list Event :=
  [ DelHeader "Content-Length";
    SetHeader "Content-Type" "text/plain; charset=utf-8";
    SetHeader "X-Content-Type-Options" "nosniff";
    WriteHeader code;
    Write (msg ++ nl) ].

(** Every type of the list is another type than the event stream, and
    has no entry in the registry or the JSON responder. *)
Definition answeredByJSON (m : gmap ContentType (option RespondFunc))
  (types : list ContentType) : Prop :=
  Forall (fun t : ContentType =>
            String.eqb t ContentTypeEventStream = false /\
                   (m !! t = None \/ m !! t = Some (Some JSON))) types.

(** The status hint of the request, if it has one, is a code that
    [WriteHeader] of net/http accepts; it panics for any other. *)
Definition validHint (r : Request) : Prop :=
  forall status : Z, ctxStatus r = Some status -> 100 <= status <= 999.

(** ** The select of the channel adapters *)







(** The loop [for set.Next() { ... set.Type() ... }]: the types it
    visits, in order, and the receiver it leaves; [None] when the fuel
    runs out or [Type] panics. *)
Fixpoint walkSet (fuel : nat) (p : CTS.ptr)
  : option (list ContentType * CTS.ptr) :=
  match fuel with
  | O => None
  | S fuel' =>
      let '(more, p') := CTS.Next p in
      if more then
        match CTS.Type_ p', walkSet fuel' p' with
        | Ret t, Some (ts, q) => Some (t :: ts, q)
        | _, _ => None
        end
      else Some ([], p')
  end.

(** The calls a user makes on the cursor of a set. *)
Inductive CursorOp : Type := OpNext | OpReset.

Definition cursorOp (p : CTS.ptr) (o : CursorOp) : CTS.ptr :=
  match o with
  | OpNext => snd (CTS.Next p)
  | OpReset => CTS.Reset p
  end.

(** A media type in the form the parser returns it. *)
Definition canonical (t : ContentType) : Prop := ParseMediaType t = Some t.

(** A string without comma. *)
Fixpoint noComma (s : string) : bool :=
  match s with
  | EmptyString => true
  | String c s' => negb (Ascii.eqb c ",") && noComma s'
  end.

(** Types the walk of [DefaultResponder] passes over for a value that is
    no channel: the event stream, and types without entry. *)
Definition passedOver (m : gmap ContentType (option RespondFunc))
  (types : list ContentType) : Prop :=
  Forall (fun t : ContentType =>
            String.eqb t ContentTypeEventStream = true \/ m !! t = None) types.

(** The responders of the package. *)
Definition builtin (fn : RespondFunc) : Prop :=
  fn = JSON \/ fn = XML \/ fn = PlainText \/ fn = HTML.

(** Calls that set or delete a header, and receives. *)
Definition beforeHeader (e : Event) : bool :=
  match e with
  | SetHeader _ _ | DelHeader _ | Recv _ => true
  | _ => false
  end.

(** What a responder of the package writes when it succeeds: the nosniff
    header, its Content-Type, the status hint, and its body in one or two
    writes. *)
Definition responderEvents (contentType : string) (r : Request)
  (bodies : list string) : list Event :=
  [SetHeader "X-Content-Type-Options" "nosniff";
   SetHeader "Content-Type" contentType]
  ++ statusEvents r ++ map Write bodies.

(** A sequence of calls of [SetResponder], applied in order. *)
Definition registerAll (regs : list (ContentType * option RespondFunc))
  (m : gmap ContentType (option RespondFunc))
  : gmap ContentType (option RespondFunc) :=
  fold_left (fun m' reg => SetResponder (fst reg) (snd reg) m') regs m.

(** * Properties *)

(** ** Byte strings *)

Lemma str_length_app (a b : string) :
  String.length (a ++ b) = (String.length a + String.length b)%nat.
Proof. induction a as [|c a IH]; simpl; [reflexivity | now rewrite IH]. Qed.

Lemma str_app_assoc (a b c : string) : (a ++ b) ++ c = a ++ b ++ c.
Proof. induction a as [|x a IH]; simpl; [reflexivity | now rewrite IH]. Qed.

Lemma prefix_split (sub s : string) :
  String.prefix sub s = true <-> exists post, s = sub ++ post.
Proof.
  revert s. induction sub as [|a sub IH]; intros s; simpl.
  - split; [intros _; now exists s | now destruct s].
  - destruct s as [|b s]; simpl.
    + split; [discriminate | intros [post H]; discriminate].
    + destruct (ascii_dec a b) as [->|Hab].
      * rewrite IH. split; intros [post H]; exists post.
        -- now rewrite H.
        -- now injection H.
      * split; [discriminate | intros [post H]; injection H; congruence].
Qed.

(** [Contains] finds exactly the occurrences of [sub]. *)
Lemma Contains_split (s sub : string) :
  Contains s sub = true <-> exists pre post, s = pre ++ sub ++ post.
Proof.
  induction s as [|c s IH].
  - change (Contains "" sub) with (String.prefix sub "" || false).
    rewrite orb_false_r, prefix_split. split.
    + intros [post H]. now exists EmptyString, post.
    + intros [pre [post H]]. destruct pre; [now exists post | discriminate].
  - change (Contains (String c s) sub)
      with (String.prefix sub (String c s) || Contains s sub).
    rewrite orb_true_iff, IH, prefix_split. split.
    + intros [[post H] | [pre [post H]]].
      * now exists EmptyString, post.
      * exists (String c pre), post. simpl. now rewrite H.
    + intros [pre [post H]]. destruct pre as [|x pre]; simpl in H.
      * left. now exists post.
      * right. exists pre, post. now injection H.
Qed.

Lemma substring_0_split (b : string) (n : nat) :
  (n <= String.length b)%nat ->
  exists rest, b = String.substring 0 n b ++ rest /\
               String.length (String.substring 0 n b) = n.
Proof.
  revert n. induction b as [|c b IH]; intros n Hn; simpl in *.
  - assert (n = 0%nat) as -> by lia. now exists EmptyString.
  - destruct n as [|n]; simpl.
    + now exists (String c b).
    + destruct (IH n) as [rest [H1 H2]]; [lia|].
      exists rest. split; [now rewrite <- H1 | now rewrite H2].
Qed.

Lemma substring_0_app (a b : string) (n : nat) :
  (String.length a <= n)%nat ->
  String.substring 0 n (a ++ b) =
  a ++ String.substring 0 (n - String.length a) b.
Proof.
  revert n. induction a as [|c a IH]; intros n Hn; simpl in *.
  - now rewrite Nat.sub_0_r.
  - destruct n as [|n]; [lia|]. simpl. rewrite IH by lia. reflexivity.
Qed.

(** An occurrence in the first [n] bytes is an occurrence that ends
    before byte [n]. *)
Lemma Contains_slice (b sub : string) (n : nat) :
  (n <= String.length b)%nat ->
  Contains (String.substring 0 n b) sub = true <->
  exists pre post,
    b = pre ++ sub ++ post /\
    (String.length pre + String.length sub <= n)%nat.
Proof.
  intros Hn. rewrite Contains_split. split.
  - intros [pre [post H]].
    destruct (substring_0_split b n Hn) as [rest [Hb Hl]].
    exists pre, (post ++ rest). split.
    + rewrite H in Hb. rewrite Hb.
      now rewrite !str_app_assoc.
    + rewrite H in Hl. rewrite !str_length_app in Hl. lia.
  - intros [pre [post [Hb Hl]]]. subst b.
    exists pre, (String.substring 0 (n - String.length pre - String.length sub) post).
    rewrite substring_0_app by lia.
    rewrite substring_0_app by lia. reflexivity.
Qed.

(** ** The sink *)

Lemma after_nil (w : ResponseWriter) : after w [] = w.
Proof. destruct w as [f l]. unfold after. simpl. now rewrite app_nil_r. Qed.

Lemma after_after (w : ResponseWriter) (es es' : list Event) :
  after (after w es) es' = after w (es ++ es').
Proof. unfold after. simpl. now rewrite app_assoc. Qed.

Lemma emit_after (es : list Event) (w : ResponseWriter) :
  emit es w = (after w es, Ret tt).
Proof. reflexivity. Qed.

Lemma writeStatus_after (r : Request) (w : ResponseWriter) :
  writeStatus r w = (after w (statusEvents r), Ret tt).
Proof.
  unfold writeStatus, statusEvents. destruct (ctxStatus r); [reflexivity|].
  unfold ret. now rewrite after_nil.
Qed.

Lemma flush_after (w : ResponseWriter) :
  flush w = (after w (flushEvents w), Ret tt).
Proof.
  unfold flush, flushEvents. destruct (Flusher w) eqn:E; [reflexivity|].
  now rewrite after_nil.
Qed.

(** Runs straight-line code against the sink. *)
Ltac run :=
  unfold bind, setNosniff, ret, lift, panic, block, http_Error;
  repeat (first [ rewrite emit_after | rewrite writeStatus_after
                | rewrite flush_after ];
          cbv beta iota);
  rewrite ?after_after, ?after_nil.

(** ** The JSON responder *)

Lemma JSON_ok (r : Request) (v : Value) (buf : string) (w : ResponseWriter) :
  json_Encode v = Ok buf ->
  JSON r v w = (after w (jsonEvents r buf), Ret None).
Proof.
  intros H. unfold JSON, jsonEvents. rewrite H. run.
  now rewrite <- ?app_assoc.
Qed.

(** C10. When the JSON encoding of the value fails, [JSON] returns an
    error that is not nil, wrapping the encoder's, and leaves the sink as
    it was: no header set, no status written, no byte of body written. *)
Theorem JSON_error_writes_nothing
  (r : Request) (v : Value) (e : error) (w : ResponseWriter) :
  json_Encode v = Err e ->
  JSON r v w = (w, Ret (Some (ErrWrap "JSON encode" e))) /\
  log (fst (JSON r v w)) = log w /\
  Result (log (fst (JSON r v w))) = Result (log w) /\
  Error (ErrWrap "JSON encode" e) = "JSON encode: " ++ Error e.
Proof.
  intros H. unfold JSON. rewrite H. unfold ret. simpl. auto.
Qed.

(** ** The XML responder *)

Lemma writes_app (es es' : list Event) :
  writes (es ++ es') = (writes es ++ writes es')%list.
Proof. unfold writes. apply omap_app. Qed.

Lemma writes_statusEvents (r : Request) : writes (statusEvents r) = [].
Proof. unfold statusEvents. now destruct (ctxStatus r). Qed.

(** The test of [XML] decides [has_declaration]. *)
Lemma XML_test (b : string) :
  Contains (slice_to b (if bool_decide (len b > 100) then 100 else len b))
           "<?xml" = true
  <-> has_declaration b.
Proof.
  unfold slice_to, has_declaration, len.
  set (n := Z.to_nat (if bool_decide (Z.of_nat (String.length b) > 100)
                      then 100 else Z.of_nat (String.length b))).
  assert (Hn : (n <= String.length b)%nat /\
               (n = 100 \/ n = String.length b /\ String.length b <= 100)%nat).
  { subst n. case_bool_decide; lia. }
  destruct Hn as [Hn Hcase].
  rewrite (Contains_slice b "<?xml" n Hn). simpl String.length.
  split; intros [pre [post [Hb Hl]]]; exists pre, post; split; trivial.
  - lia.
  - destruct Hcase as [-> | [-> _]]; [lia|].
    rewrite Hb, !str_length_app. simpl. lia.
Qed.

(** C9. [XML] writes the generic declaration before the marshalled body
    exactly when no declaration lies within the first 100 bytes of that
    body; a body that starts with a declaration is written as it is, so
    the response holds the declarations of the body and no other. *)
Theorem XML_declaration_once
  (r : Request) (v : Value) (b : string) (w : ResponseWriter) :
  xml_Marshal v = Ok b ->
  (has_declaration b ->
   XML r v w = (after w (xmlHead r ++ [Write b]), Ret None)) /\
  (~ has_declaration b ->
   XML r v w = (after w (xmlHead r ++ [Write xml_Header; Write b]), Ret None)) /\
  (String.prefix "<?xml" b = true ->
   writes (log (fst (XML r v w))) = (writes (log w) ++ [b])%list).
Proof.
  intros Hm.
  assert (Hrun : XML r v w =
    (after w (xmlHead r ++
       (if Contains (slice_to b (if bool_decide (len b > 100) then 100 else len b))
                    "<?xml"
        then [] else [Write xml_Header]) ++ [Write b]), Ret None)).
  { unfold XML. rewrite Hm. unfold xmlHead.
    destruct (Contains _ _); simpl negb; cbv iota; run;
      now rewrite <- ?app_assoc. }
  assert (Hyes : has_declaration b ->
    XML r v w = (after w (xmlHead r ++ [Write b]), Ret None)).
  { intros Hd. apply XML_test in Hd. now rewrite Hrun, Hd. }
  split; [exact Hyes | split].
  - intros Hd. rewrite Hrun.
    destruct (Contains _ _) eqn:E; [|reflexivity].
    exfalso. apply Hd. now apply XML_test.
  - intros Hp. rewrite Hyes.
    + unfold after, xmlHead. cbn [fst log].
      rewrite !writes_app, writes_statusEvents. reflexivity.
    + apply prefix_split in Hp. destruct Hp as [post Hp].
      exists EmptyString, post. split; [exact Hp | simpl; lia].
Qed.

(** ** The cursor of a ContentTypeSet *)

Lemma wrap_int_id (z : Z) : int_min <= z <= int_max -> wrap_int z = z.
Proof.
  unfold wrap_int, int_min, int_max. intros H.
  rewrite Z.mod_small; lia.
Qed.

Lemma nexts_S (n : nat) (p : CTS.ptr) :
  nexts (S n) p = snd (CTS.Next (nexts n p)).
Proof.
  revert p. induction n as [|n IH]; intros p; [reflexivity|].
  change (nexts (S (S n)) p) with (nexts (S n) (snd (CTS.Next p))).
  rewrite IH. reflexivity.
Qed.

Lemma nexts_nil (n : nat) : nexts n None = None.
Proof. induction n as [|n IH]; [reflexivity | exact IH]. Qed.

(** From a cursor at -1, [n] calls leave the cursor at [n - 1], as long
    as the counter stays an [int]. *)
Lemma nexts_pos (n : nat) (l : list ContentType) :
  Z.of_nat n <= int_max + 1 ->
  nexts n (Some (CTS.mk l (-1))) = Some (CTS.mk l (Z.of_nat n - 1)).
Proof.
  induction n as [|n IH]; intros Hn; [reflexivity|].
  rewrite nexts_S, IH by lia. simpl.
  rewrite wrap_int_id by (unfold int_min, int_max in *; lia).
  do 2 f_equal. lia.
Qed.

Lemma Next_at (l : list ContentType) (k : Z) :
  int_min <= k + 1 <= int_max ->
  CTS.Next (Some (CTS.mk l k)) =
  (bool_decide (k + 1 < Z.of_nat (length l)), Some (CTS.mk l (k + 1))).
Proof.
  intros H. unfold CTS.Next, CTS.size. simpl. now rewrite wrap_int_id.
Qed.

(** [Type] on a set that is not empty: the entry at the clamped cursor. *)
Lemma Type_at (l : list ContentType) (k : Z) (i : nat) (t : ContentType) :
  l !! i = Some t ->
  i = Z.to_nat (Z.max 0 (Z.min k (Z.of_nat (length l) - 1))) ->
  CTS.Type_ (Some (CTS.mk l k)) = Ret t.
Proof.
  intros Hi Hk. pose proof (lookup_lt_Some _ _ _ Hi) as Hlt.
  unfold CTS.Type_, CTS.size. simpl.
  assert (Z.to_nat (if bool_decide (k >= Z.of_nat (length l))
                    then Z.of_nat (length l) - 1
                    else if bool_decide (k <= 0) then 0 else k) = i) as Hp.
  { subst i. repeat case_bool_decide; lia. }
  rewrite bool_decide_true by (repeat case_bool_decide; lia).
  now rewrite Hp, Hi.
Qed.

(** C8. On the nil set [Next] returns false, however often it is called,
    and [Type] returns the empty content type.  On a set that is not
    empty and whose cursor is at its start (a new set, or one after
    [Reset]), [Type] returns the first entry; once the cursor has run
    past the end, every further [Next] returns false and [Type] returns
    the last entry.  The number of calls is that of an [int] counter. *)
Theorem Next_Type_clamped :
  (forall n : nat,
      fst (CTS.Next (nexts n None)) = false /\
      CTS.Type_ (nexts n None) = Ret ContentTypeNone) /\
  (forall (t : ContentType) (l : list ContentType) (s0 : CTS.ContentTypeSet),
      CTS.set s0 = t :: l ->
      CTS.Type_ (CTS.Reset (Some s0)) = Ret t /\
      forall n : nat,
        (length (t :: l) <= n)%nat ->
        Z.of_nat n <= int_max ->
        fst (CTS.Next (nexts n (CTS.Reset (Some s0)))) = false /\
        exists x, last (t :: l) = Some x /\
          CTS.Type_ (nexts (S n) (CTS.Reset (Some s0))) = Ret x).
Proof.
  split; [intros n; rewrite nexts_nil; split; reflexivity|].
  intros t l s0 Hs. unfold CTS.Reset. rewrite Hs.
  split; [apply (Type_at _ _ 0%nat); [reflexivity | lia]|].
  intros n Hn Hmax. split.
  - rewrite nexts_pos by lia.
    rewrite Next_at by (unfold int_min, int_max in *; lia).
    simpl fst. apply bool_decide_false. simpl length in *. lia.
  - destruct (last (t :: l)) as [x|] eqn:Hx.
    + exists x. split; [reflexivity|].
      rewrite nexts_pos by lia.
      rewrite last_lookup in Hx.
      apply (Type_at _ _ _ _ Hx). simpl length in *. lia.
    + apply last_None in Hx. discriminate.
Qed.

(** ** Building a ContentTypeSet *)

Lemma existsb_eqb_elem (x : string) (l : list string) :
  existsb (String.eqb x) l = true <-> x ∈ l.
Proof.
  rewrite existsb_exists, list_elem_of_In. split.
  - intros [y [Hin Heq]]. apply String.eqb_eq in Heq. now subst.
  - intros Hin. exists x. split; [exact Hin | apply String.eqb_refl].
Qed.

Lemma first_occurrences_elem (l : list string) (x : string) :
  x ∈ first_occurrences l <-> x ∈ l.
Proof.
  induction l as [|y l IH]; simpl; [reflexivity|].
  rewrite !elem_of_cons, list_elem_of_filter, IH.
  destruct (decide (x = y)) as [Heq|Hne].
  - split; intros _; now left.
  - split; [intros [?|[_ ?]]; auto | intros [?|?]; auto].
Qed.

Lemma first_occurrences_NoDup (l : list string) : NoDup (first_occurrences l).
Proof.
  induction l as [|y l IH]; simpl; [constructor|].
  constructor.
  - rewrite list_elem_of_filter. intros [H _]. now apply H.
  - now apply NoDup_filter.
Qed.

Lemma first_occurrences_sublist (l : list string) :
  first_occurrences l `sublist_of` l.
Proof.
  induction l as [|y l IH]; simpl; [constructor|].
  apply sublist_skip. etransitivity; [apply sublist_filter | exact IH].
Qed.

(** The loop of [NewContentTypeSet] appends to [acc] the first
    occurrences of the parsed types that [acc] does not hold yet. *)
Lemma allTypes_spec (types : list string) (acc : list ContentType) :
  allTypes types acc =
  (acc ++ filter (fun y => y ∉ acc)
                 (first_occurrences (omap ParseMediaType types)))%list.
Proof.
  revert acc. induction types as [|t rest IH]; intros acc; simpl.
  - now rewrite app_nil_r.
  - destruct (ParseMediaType t) as [x|] eqn:Hp; simpl; [|apply IH].
    destruct (existsb (String.eqb x) acc) eqn:Hx.
    + apply existsb_eqb_elem in Hx.
      rewrite IH, filter_cons_False by (intros H; now apply H).
      f_equal. symmetry. apply list_filter_filter_l.
      intros y Hy ->. contradiction.
    + assert (x ∉ acc) as Hx'.
      { intros Hin. apply existsb_eqb_elem in Hin. congruence. }
      rewrite IH, filter_cons_True by exact Hx'.
      rewrite <- app_assoc. simpl. do 2 f_equal.
      rewrite list_filter_filter. apply list_filter_iff.
      intros y. rewrite elem_of_app, list_elem_of_singleton.
      split; [intros H; split; intros ?; apply H; auto | intros [H1 H2] [?|?]; auto].
Qed.

Lemma NewContentTypeSet_Types (types : list string) :
  CTS.Types (NewContentTypeSet types) =
  first_occurrences (omap ParseMediaType types).
Proof.
  unfold NewContentTypeSet. destruct types as [|t rest]; [reflexivity|].
  rewrite allTypes_spec. simpl app.
  rewrite (list_filter_iff _ (fun _ => True)).
  - assert (Hall : forall l : list string, filter (fun _ => True) l = l).
    { induction l as [|a l IHl]; [reflexivity|].
      rewrite filter_cons_True by exact I. now rewrite IHl. }
    rewrite Hall.
    destruct (first_occurrences _); reflexivity.
  - intros y. rewrite elem_of_nil. split; auto.
Qed.

(** A set that is not nil starts with its cursor before the first
    entry, and holds an entry. *)
Lemma NewContentTypeSet_fresh (types : list string) (s : CTS.ContentTypeSet) :
  NewContentTypeSet types = Some s ->
  CTS.pos s = -1 /\ CTS.set s <> [].
Proof.
  unfold NewContentTypeSet. destruct types as [|t rest]; [discriminate|].
  destruct (allTypes (t :: rest) []) eqn:E; [discriminate|].
  intros [= <-]. simpl. split; [reflexivity | discriminate].
Qed.

(** C3. For every Accept header the accepted set is built (the model is
    a total function): it holds the media types of the fields that
    parse, each once, in the order of their first occurrence; fields
    that do not parse leave no trace, and a field counts only by the
    media type the parser returns, whatever parameters it carries.  The
    header of the example gives [application/json; text/html]. *)
Theorem accepted_set_first_occurrences (r : Request) :
  ctxContentType r = None ->
  CTS.Types (GetAcceptedContentType r) = first_occurrences (acceptParsed r) /\
  NoDup (CTS.Types (GetAcceptedContentType r)) /\
  (forall t, t ∈ CTS.Types (GetAcceptedContentType r) <->
             exists f, f ∈ acceptFields r /\ ParseMediaType f = Some t) /\
  CTS.Types (GetAcceptedContentType r) `sublist_of` acceptParsed r /\
  (Header_Get r "Accept" = "application/json, text/html;q=0.9, application/json" ->
   ParseMediaType "application/json" = Some "application/json" ->
   ParseMediaType " text/html;q=0.9" = Some "text/html" ->
   ParseMediaType " application/json" = Some "application/json" ->
   GetAcceptedContentType r =
   Some (CTS.mk ["application/json"; "text/html"] (-1))).
Proof.
  intros Hctx.
  assert (HT : CTS.Types (GetAcceptedContentType r) =
               first_occurrences (acceptParsed r)).
  { unfold GetAcceptedContentType. rewrite Hctx.
    apply NewContentTypeSet_Types. }
  rewrite HT. split; [reflexivity|].
  split; [apply first_occurrences_NoDup|].
  split; [|split; [apply first_occurrences_sublist|]].
  - intros t. rewrite first_occurrences_elem. unfold acceptParsed.
    apply list_elem_of_omap.
  - intros Hh H1 H2 H3. unfold GetAcceptedContentType. rewrite Hctx, Hh.
    unfold NewContentTypeSet. simpl Split. simpl allTypes.
    rewrite H1, H2, H3. reflexivity.
Qed.

(** ** The walk over the accepted types *)

(** From a cursor in front of [rest], the loop of [DefaultResponder]
    tries the types of [rest] in order. *)
Lemma negotiate_walk (m : gmap ContentType (option RespondFunc))
  (r : Request) (v : Value) (l rest : list ContentType) :
  is_slice l ->
  forall (k fuel : nat) (w : ResponseWriter),
    drop k l = rest ->
    (k <= length l)%nat ->
    (length rest < fuel)%nat ->
    negotiate fuel m r v (Some (CTS.mk l (Z.of_nat k - 1))) w =
    walkTypes m r v rest w.
Proof.
  intros Hl. unfold is_slice in Hl.
  induction rest as [|t rest IH]; intros k fuel w Hd Hk Hf;
    (destruct fuel as [|fuel]; [simpl in Hf; lia|]);
    pose proof (f_equal length Hd) as Hlen; rewrite length_drop in Hlen;
    simpl in Hlen; cbn [negotiate];
    rewrite Next_at by (unfold int_min, int_max in *; lia).
  - rewrite bool_decide_false by lia. reflexivity.
  - rewrite bool_decide_true by lia.
    assert (Hi : l !! k = Some t).
    { rewrite <- (Nat.add_0_r k), <- lookup_drop, Hd. reflexivity. }
    rewrite (Type_at l _ k t Hi) by lia.
    assert (Hd' : drop (S k) l = rest).
    { rewrite (drop_S _ _ _ Hi) in Hd. now injection Hd. }
    assert (Hnext : forall w', negotiate fuel m r v
              (Some (CTS.mk l (Z.of_nat k - 1 + 1))) w' = walkTypes m r v rest w').
    { intros w'. replace (Z.of_nat k - 1 + 1) with (Z.of_nat (S k) - 1) by lia.
      apply IH; [exact Hd' | lia | simpl in Hf; lia]. }
    cbn [walkTypes]. unfold bind at 1, lift.
    destruct (String.eqb t ContentTypeEventStream); [apply Hnext|].
    destruct (m !! t) as [fn|]; [|apply Hnext].
    unfold bind. destruct (call fn r v w) as [w' [[e|]| |]]; try reflexivity.
    destruct (Is_ErrCanNotEncodeObject e); [apply Hnext | reflexivity].
Qed.

(** The loop of [DefaultResponder] on the accepted set of the request
    tries its entries in order. *)
Lemma negotiate_accepted (m : gmap ContentType (option RespondFunc))
  (r : Request) (v : Value) (w : ResponseWriter) :
  is_slice (CTS.Types (GetAcceptedContentType r)) ->
  negotiate (S (length (CTS.Types (GetAcceptedContentType r))))
            m r v (GetAcceptedContentType r) w =
  walkTypes m r v (CTS.Types (GetAcceptedContentType r)) w.
Proof.
  intros Hl.
  destruct (GetAcceptedContentType r) as [s|] eqn:Hs; [|reflexivity].
  assert (Hpos : CTS.pos s = -1).
  { unfold GetAcceptedContentType in Hs.
    destruct (ctxContentType r);
      now apply NewContentTypeSet_fresh in Hs. }
  destruct s as [l p]. cbn [CTS.pos] in Hpos. subst p.
  cbn [CTS.Types CTS.set] in *.
  apply (negotiate_walk m r v l l Hl 0%nat); [reflexivity | lia | lia].
Qed.

(** For a value that is no channel, [DefaultResponder] is the walk over
    the entries of the accepted set. *)
Lemma DefaultResponder_walk (m : gmap ContentType (option RespondFunc))
  (r : Request) (v : Value) (w : ResponseWriter) :
  isChan v = false ->
  is_slice (CTS.Types (GetAcceptedContentType r)) ->
  DefaultResponder m r v w =
  walkTypes m r v (CTS.Types (GetAcceptedContentType r)) w.
Proof.
  intros Hv Hl. pose proof (negotiate_accepted m r v w Hl) as Hwalk.
  unfold DefaultResponder. destruct v; try exact Hwalk. discriminate.
Qed.

(** Types without an entry are passed over. *)
Lemma walkTypes_unregistered (m : gmap ContentType (option RespondFunc))
  (r : Request) (v : Value) (types : list ContentType) (w : ResponseWriter) :
  unregistered m types ->
  walkTypes m r v types w = respondDefault m r v w.
Proof.
  induction 1 as [|t rest Ht _ IH]; simpl; [reflexivity|].
  rewrite Ht. now destruct (String.eqb t ContentTypeEventStream).
Qed.

Lemma omap_all_None (fields : list string) :
  Forall (fun f => ParseMediaType f = None) fields ->
  omap ParseMediaType fields = [].
Proof.
  induction 1 as [|f fields Hf _ IH]; [reflexivity|].
  simpl. now rewrite Hf.
Qed.

(** C7 (amended). When no field of the Accept header parses, which
    includes the empty header, the accepted set is the nil pointer, not
    an empty set value; every method takes the nil receiver for the
    empty set, and [DefaultResponder] goes straight to the responder of
    the default type, after buffering the value when it is a channel. *)
Theorem accepted_set_nil_falls_back (r : Request) :
  ctxContentType r = None ->
  Forall (fun f => ParseMediaType f = None) (acceptFields r) ->
  GetAcceptedContentType r = None /\
  (CTS.Next None = (false, None) /\
   CTS.Type_ None = Ret ContentTypeNone /\
   CTS.Types None = [] /\
   CTS.String_ None = "" /\
   forall t, CTS.Has None t = false) /\
  forall (m : gmap ContentType (option RespondFunc)) (v : Value)
         (w : ResponseWriter),
    DefaultResponder m r v w =
    if isChan v
    then (v' <- channelIntoSlice r v ;; respondDefault m r v') w
    else respondDefault m r v w.
Proof.
  intros Hctx Hall.
  assert (Hnil : GetAcceptedContentType r = None).
  { destruct (GetAcceptedContentType r) as [s|] eqn:Hs; [|reflexivity].
    exfalso.
    assert (HT : CTS.Types (GetAcceptedContentType r) = []).
    { unfold GetAcceptedContentType. rewrite Hctx.
      rewrite NewContentTypeSet_Types.
      fold (acceptFields r). now rewrite omap_all_None. }
    rewrite Hs in HT. unfold GetAcceptedContentType in Hs.
    rewrite Hctx in Hs. apply NewContentTypeSet_fresh in Hs.
    now destruct Hs. }
  split; [exact Hnil|].
  split; [repeat split|].
  intros m v w. unfold DefaultResponder. rewrite Hnil.
  destruct v; reflexivity.
Qed.

(** ** Falling back to the default responder *)

Lemma respondDefault_JSON (m : gmap ContentType (option RespondFunc))
  (r : Request) (v : Value) (buf : string) (w : ResponseWriter) :
  m !! ContentTypeDefault = Some (Some JSON) ->
  json_Encode v = Ok buf ->
  respondDefault m r v w = (after w (jsonEvents r buf), Ret tt).
Proof.
  intros Hm Hj. unfold respondDefault. rewrite Hm.
  change (default None (Some (Some JSON))) with (Some JSON).
  unfold bind. cbn [call]. rewrite (JSON_ok r v buf w Hj).
  reflexivity.
Qed.

(** The response a recorder shows after [JSON] alone. *)
Lemma Result_jsonEvents (r : Request) (buf : string) :
  resp_Code (Result (jsonEvents r buf)) = default 200 (ctxStatus r) /\
  resp_Header (Result (jsonEvents r buf)) !! "Content-Type"
    = Some "application/json; charset=utf-8" /\
  resp_Body (Result (jsonEvents r buf)) = buf.
Proof.
  unfold jsonEvents, statusEvents.
  destruct (ctxStatus r) as [status|]; repeat split.
Qed.

(** C1 (amended). When the accepted set is empty, or none of its types
    has an entry in the registry, [DefaultResponder] goes to the
    responder registered for the default type, whatever the value (the
    channel of a client that does not accept the event stream is
    buffered into a slice first).  With JSON registered there, as at
    startup, a value that is no channel and that JSON encodes is
    answered by its encoding, with Content-Type application/json and the
    status hint of the request, a code that [WriteHeader] accepts, 200
    when the request carries none; a value that is no channel and that
    JSON does not encode is answered by the 500 response with the text
    of the encoding error. *)
Theorem fallback_to_default_JSON
  (m : gmap ContentType (option RespondFunc)) (r : Request) (v : Value)
  (w : ResponseWriter) :
  is_slice (CTS.Types (GetAcceptedContentType r)) ->
  unregistered m (CTS.Types (GetAcceptedContentType r)) ->
  (isChan v = false ->
   DefaultResponder m r v w = respondDefault m r v w) /\
  (isChan v = true ->
   CTS.Has (GetAcceptedContentType r) ContentTypeEventStream = false ->
   DefaultResponder m r v w =
   (v' <- channelIntoSlice r v ;; respondDefault m r v') w) /\
  (forall buf : string,
    isChan v = false ->
    m !! ContentTypeDefault = Some (Some JSON) ->
    json_Encode v = Ok buf ->
    validHint r ->
    DefaultResponder m r v w = (after w (jsonEvents r buf), Ret tt) /\
    resp_Code (Result (jsonEvents r buf)) = default 200 (ctxStatus r) /\
    (ctxStatus r = None -> resp_Code (Result (jsonEvents r buf)) = 200) /\
    resp_Header (Result (jsonEvents r buf)) !! "Content-Type"
      = Some "application/json; charset=utf-8" /\
    resp_Body (Result (jsonEvents r buf)) = buf) /\
  (forall e : error,
    isChan v = false ->
    m !! ContentTypeDefault = Some (Some JSON) ->
    json_Encode v = Err e ->
    DefaultResponder m r v w
      = (after w (errorEvents ("JSON encode: " ++ Error e) 500), Ret tt) /\
    resp_Code (Result (errorEvents ("JSON encode: " ++ Error e) 500)) = 500 /\
    resp_Header (Result (errorEvents ("JSON encode: " ++ Error e) 500))
      !! "Content-Type" = Some "text/plain; charset=utf-8" /\
    resp_Body (Result (errorEvents ("JSON encode: " ++ Error e) 500))
      = "JSON encode: " ++ Error e ++ nl).
Proof.
  intros Hl Hun.
  assert (Hfall : isChan v = false ->
                  DefaultResponder m r v w = respondDefault m r v w).
  { intros Hv. rewrite DefaultResponder_walk by assumption.
    now apply walkTypes_unregistered. }
  split; [exact Hfall | split; [|split]].
  - intros Hv Hes. destruct v; try discriminate Hv.
    unfold DefaultResponder. rewrite Hes. unfold bind.
    destruct (channelIntoSlice r (VChan items closes) w) as [w' [v'| |]];
      try reflexivity.
    rewrite negotiate_accepted by exact Hl.
    now apply walkTypes_unregistered.
  - intros buf Hv Hm Hj _. rewrite (Hfall Hv).
    destruct (Result_jsonEvents r buf) as [Hc [Hh Hb]].
    split; [now apply respondDefault_JSON|].
    split; [exact Hc|]. split; [|now split].
    intros Hs. now rewrite Hc, Hs.
  - intros e Hv Hm Hj. rewrite (Hfall Hv).
    split; [|split; [reflexivity | split; reflexivity]].
    unfold respondDefault. rewrite Hm.
    change (default None (Some (Some JSON))) with (Some JSON).
    unfold bind. cbn [call]. unfold JSON. rewrite Hj.
    reflexivity.
Qed.

(** ** Declining *)

Lemma PlainText_declines (r : Request) (v : Value) (w : ResponseWriter) :
  notText v ->
  PlainText r v w = (w, Ret (Some ErrCanNotEncodeObject)).
Proof.
  destruct v as [| s | e | o | l | items closes]; simpl;
    try reflexivity; [intros [] | intros [-> ->]; reflexivity].
Qed.

(** C2. When the responder of the accepted type at hand returns an error
    that is [ErrCanNotEncodeObject], [DefaultResponder] goes on with the
    accepted types after it, and no error response is written for the
    refusal.  For the Accept header of the example, with [PlainText]
    registered for text/plain (or nothing, as at startup), a value that is
    no string, stringer or text marshaler is answered by its JSON
    encoding alone. *)
Theorem decline_tries_next_type
  (m : gmap ContentType (option RespondFunc)) (r : Request) (v : Value)
  (w : ResponseWriter) :
  isChan v = false ->
  (forall (t : ContentType) (rest : list ContentType) (fn : option RespondFunc)
          (e : error) (w' : ResponseWriter),
      CTS.Types (GetAcceptedContentType r) = t :: rest ->
      is_slice (t :: rest) ->
      String.eqb t ContentTypeEventStream = false ->
      m !! t = Some fn ->
      call fn r v w = (w', Ret (Some e)) ->
      Is_ErrCanNotEncodeObject e = true ->
      DefaultResponder m r v w = walkTypes m r v rest w') /\
  (forall buf : string,
      ctxContentType r = None ->
      Header_Get r "Accept" = "text/plain, application/json" ->
      ParseMediaType "text/plain" = Some ContentTypePlainText ->
      ParseMediaType " application/json" = Some ContentTypeJSON ->
      m !! ContentTypePlainText = Some (Some PlainText) \/
      m !! ContentTypePlainText = None ->
      m !! ContentTypeJSON = Some (Some JSON) ->
      notText v ->
      json_Encode v = Ok buf ->
      DefaultResponder m r v w = (after w (jsonEvents r buf), Ret tt) /\
      writes (jsonEvents r buf) = [buf] /\
      statuses (jsonEvents r buf) = statuses (statusEvents r)).
Proof.
  intros Hv. split.
  - intros t rest fn e w' HT Hl Ht Hm Hcall He.
    rewrite DefaultResponder_walk by (rewrite ?HT; assumption).
    rewrite HT. cbn [walkTypes]. rewrite Ht, Hm.
    unfold bind. now rewrite Hcall, He.
  - intros buf Hctx Hh Hp1 Hp2 Hm1 Hm2 Hn Hj.
    assert (HT : CTS.Types (GetAcceptedContentType r) =
                 [ContentTypePlainText; ContentTypeJSON]).
    { unfold GetAcceptedContentType. rewrite Hctx, Hh.
      unfold NewContentTypeSet. simpl Split. simpl allTypes.
      rewrite Hp1, Hp2. reflexivity. }
    split.
    + rewrite DefaultResponder_walk
        by (first [assumption | rewrite HT; unfold is_slice, int_max; simpl; lia]).
      rewrite HT. cbn [walkTypes].
      change (String.eqb ContentTypePlainText ContentTypeEventStream) with false.
      change (String.eqb ContentTypeJSON ContentTypeEventStream) with false.
      cbv iota. rewrite Hm2.
      destruct Hm1 as [Hm1 | Hm1]; rewrite Hm1; unfold bind; cbn [call].
      * rewrite (PlainText_declines r v w Hn). cbn [Is_ErrCanNotEncodeObject].
        now rewrite (JSON_ok r v buf w Hj).
      * now rewrite (JSON_ok r v buf w Hj).
    + unfold jsonEvents, statusEvents.
      destruct (ctxStatus r); split; reflexivity.
Qed.

(** ** Registering nil *)

Lemma Has_Types (p : CTS.ptr) (t : ContentType) :
  CTS.Has p t = true <-> t ∈ CTS.Types p.
Proof.
  destruct p as [s|]; simpl.
  - apply existsb_eqb_elem.
  - rewrite elem_of_nil. split; [discriminate | intros []].
Qed.

(** A key of the map that is its own media type is a supported type,
    whatever the map holds for it. *)
Lemma supported_key {F : Type} (m : gmap ContentType (option F))
  (t : ContentType) (fn : option F) :
  ParseMediaType t = Some t ->
  m !! t = Some fn ->
  t ∈ CTS.Types (NewContentTypeSet (sort_Strings (map_to_list m).*1)).
Proof.
  intros Hp Hm. rewrite NewContentTypeSet_Types, first_occurrences_elem.
  apply list_elem_of_omap. exists t. split; [|exact Hp].
  unfold sort_Strings. rewrite merge_sort_Permutation.
  apply list_elem_of_fmap. exists (t, fn). split; [reflexivity|].
  now apply elem_of_map_to_list.
Qed.

(** C6 (the code at the failing input).  [SetResponder(t, nil)] and
    [SetDecoder(t, nil)] store nil under the key and keep the key:
    [SupportedResponders] and [SupportedDecoders] still list [t], and
    [DefaultResponder] calls the nil func when the client asks for [t]
    and panics, where for a type without entry it would go on to the
    default responder.  Only [DefaultDecoder] takes the nil entry for a
    missing one: it decodes as if the key had been deleted. *)
Theorem nil_registration_keeps_the_key
  (m : gmap ContentType (option RespondFunc))
  (md : gmap ContentType (option DecodeFunc)) (t : ContentType) :
  ParseMediaType t = Some t ->
  CTS.Has (SupportedResponders (SetResponder t None m)) t = true /\
  CTS.Has (SupportedDecoders (SetDecoder t None md)) t = true /\
  (forall (r : Request) (v : Value) (w : ResponseWriter),
      isChan v = false ->
      CTS.Types (GetAcceptedContentType r) = [t] ->
      String.eqb t ContentTypeEventStream = false ->
      DefaultResponder (SetResponder t None m) r v w =
      (w, Panic "invalid memory address or nil pointer dereference") /\
      (m !! t = None ->
       DefaultResponder m r v w = respondDefault m r v w)) /\
  (forall r : Request,
      DefaultDecoder (SetDecoder t None md) r = DefaultDecoder (delete t md) r).
Proof.
  intros Hp. split; [|split; [|split]].
  - apply Has_Types. unfold SupportedResponders, SetResponder.
    apply (supported_key _ t None Hp). apply lookup_insert_eq.
  - apply Has_Types. unfold SupportedDecoders, SetDecoder.
    apply (supported_key _ t None Hp). apply lookup_insert_eq.
  - intros r v w Hv HT Ht.
    assert (Hl : is_slice (CTS.Types (GetAcceptedContentType r))).
    { rewrite HT. unfold is_slice, int_max. simpl. lia. }
    split.
    + rewrite DefaultResponder_walk by assumption.
      rewrite HT. cbn [walkTypes]. rewrite Ht.
      unfold SetResponder. rewrite lookup_insert_eq. reflexivity.
    + intros Hm. rewrite DefaultResponder_walk by assumption.
      apply walkTypes_unregistered. rewrite HT.
      constructor; [exact Hm | constructor].
  - intros r. unfold DefaultDecoder, SetDecoder.
    destruct (decide (GetRequestContentType r ContentTypeNone = t)) as [->|Hne].
    + now rewrite lookup_insert_eq, lookup_delete_eq.
    + now rewrite lookup_insert_ne, lookup_delete_ne by congruence.
Qed.

(** ** The channel adapters *)

Lemma renderItem_after (r : Request) (v : Value) (w : ResponseWriter) :
  renderItem r v w = (after w (renderEvents r v), Ret (rendered r v)).
Proof.
  unfold renderItem, renderEvents, rendered.
  destruct (renderer r v) as [[es [err|]]|]; run; reflexivity.
Qed.

Lemma loopEnd_step (n : nat) (v : Value) (items : list Value) (closes : bool) :
  loopEnd (Some (S n)) (v :: items) closes = loopEnd (Some n) items closes.
Proof. reflexivity. Qed.

(** The select loop of the event stream: the events of the items
    received, in order, then the terminal frame. *)
Lemma eventLoop_spec (r : Request) (closes : bool) (items : list Value) :
  forall (done : option nat) (w : ResponseWriter) (cancelled : bool),
    loopEnd done items closes = Some cancelled ->
    eventLoop r items closes done w =
    (after w (flat_map (itemEvents r (Flusher w)) (consumed done items)
              ++ [Write (terminalFrame cancelled)]), Ret None).
Proof.
  induction items as [|v items IH]; intros done w cancelled Hend.
  - destruct done as [[|n]|]; simpl in Hend; cbn [eventLoop].
    + injection Hend as <-. run. reflexivity.
    + destruct closes; injection Hend as <-; run; reflexivity.
    + destruct closes; [|discriminate]. injection Hend as <-. run. reflexivity.
  - assert (Hstep : forall done',
      loopEnd done' items closes = Some cancelled ->
      (emit [Recv v] ;;
       v' <- renderItem r v ;;
       match json_Marshal v' with
       | Err err =>
           emit [Write (frame_error err)] ;; flush ;;
           eventLoop r items closes done'
       | Ok bytes =>
           emit [Write (frame_data bytes)] ;; flush ;;
           eventLoop r items closes done'
       end) w =
      (after w (itemEvents r (Flusher w) v
                ++ flat_map (itemEvents r (Flusher w)) (consumed done' items)
                ++ [Write (terminalFrame cancelled)]), Ret None)).
    { intros done' Hend'. unfold bind at 1. rewrite emit_after.
      unfold bind at 1. rewrite renderItem_after.
      unfold itemEvents at 1. unfold itemFrame.
      destruct (json_Marshal (rendered r v)) as [bytes|err];
        unfold bind; rewrite emit_after, flush_after;
        rewrite (IH done' _ cancelled Hend'); rewrite !after_after;
        unfold flushEvents; cbn [Flusher after];
        do 2 f_equal; rewrite <- ?app_assoc; cbn [app];
        rewrite <- ?app_assoc; reflexivity. }
    destruct done as [[|n]|]; cbn [eventLoop tick Nat.pred].
    + simpl in Hend. injection Hend as <-. run. reflexivity.
    + rewrite loopEnd_step in Hend. rewrite (Hstep (Some n) Hend).
      cbn [consumed take flat_map].
      now rewrite <- app_assoc.
    + rewrite (Hstep None Hend). cbn [consumed flat_map].
      now rewrite <- app_assoc.
Qed.





(** ** The schedule of a select loop *)







(** The select loop of [channelIntoSlice]: the items received are
    rendered and buffered in order; a cancellation writes the 504
    response and gives nil, a close gives the slice. *)
Lemma sliceLoop_spec (r : Request) (closes : bool) (items : list Value) :
  forall (done : option nat) (to : list Value) (w : ResponseWriter)
         (cancelled : bool),
    loopEnd done items closes = Some cancelled ->
    sliceLoop r items closes done to w =
    if cancelled
    then (after w (flat_map (bufferEvents r) (consumed done items)
                   ++ errorEvents "Server Timeout" 504), Ret VNil)
    else (after w (flat_map (bufferEvents r) items),
          Ret (VSlice (to ++ map (rendered r) items))).
Proof.
  induction items as [|v items IH]; intros done to w cancelled Hend.
  - destruct done as [[|n]|]; simpl in Hend; cbn [sliceLoop].
    + injection Hend as <-. run. reflexivity.
    + destruct closes; injection Hend as <-; run;
        cbn [map flat_map]; rewrite ?app_nil_r, ?after_nil; reflexivity.
    + destruct closes; [|discriminate]. injection Hend as <-. run.
      cbn [map flat_map]. rewrite ?app_nil_r, ?after_nil. reflexivity.
  - assert (Hstep : forall done',
      loopEnd done' items closes = Some cancelled ->
      (emit [Recv v] ;;
       v' <- renderItem r v ;;
       sliceLoop r items closes done' (to ++ [v'])) w =
      if cancelled
      then (after w (bufferEvents r v
                     ++ flat_map (bufferEvents r) (consumed done' items)
                     ++ errorEvents "Server Timeout" 504), Ret VNil)
      else (after w (bufferEvents r v ++ flat_map (bufferEvents r) items),
            Ret (VSlice (to ++ rendered r v :: map (rendered r) items)))).
    { intros done' Hend'. unfold bind at 1. rewrite emit_after.
      unfold bind. rewrite renderItem_after.
      rewrite (IH done' _ _ cancelled Hend'). unfold bufferEvents at 1 3.
      destruct cancelled; rewrite !after_after, <- ?app_assoc;
        reflexivity. }
    destruct done as [[|n]|]; cbn [sliceLoop tick Nat.pred].
    + simpl in Hend. injection Hend as <-. run. reflexivity.
    + rewrite loopEnd_step in Hend. rewrite (Hstep (Some n) Hend).
      cbn [consumed take flat_map map].
      destruct cancelled; now rewrite <- ?app_assoc.
    + rewrite (Hstep None Hend). cbn [consumed flat_map map].
      destruct cancelled; now rewrite <- ?app_assoc.
Qed.

Lemma walkTypes_JSON (m : gmap ContentType (option RespondFunc))
  (r : Request) (v : Value) (buf : string) (types : list ContentType)
  (w : ResponseWriter) :
  answeredByJSON m types ->
  m !! ContentTypeDefault = Some (Some JSON) ->
  json_Encode v = Ok buf ->
  walkTypes m r v types w = (after w (jsonEvents r buf), Ret tt).
Proof.
  intros Hall Hm Hj.
  induction Hall as [|t rest [Ht Hreg] _ IH]; cbn [walkTypes].
  - now apply respondDefault_JSON.
  - rewrite Ht. destruct Hreg as [Hreg | Hreg]; rewrite Hreg; [exact IH|].
    unfold bind. cbn [call]. now rewrite (JSON_ok r v buf w Hj).
Qed.

(** C5 (the code at the failing input).  When the value is a channel
    that is buffered and the context is cancelled before the producer
    closes it, [channelIntoSlice] writes the 504 response and returns
    nil, and [DefaultResponder] goes on and answers with the JSON
    encoding of nil: one call writes two statuses' worth of headers and
    two bodies. *)
Theorem cancelled_buffering_writes_two_bodies
  (m : gmap ContentType (option RespondFunc)) (r : Request)
  (items : list Value) (closes : bool) (buf : string) (w : ResponseWriter) :
  loopEnd (ctxDone r) items closes = Some true ->
  is_slice (CTS.Types (GetAcceptedContentType r)) ->
  answeredByJSON m (CTS.Types (GetAcceptedContentType r)) ->
  m !! ContentTypeDefault = Some (Some JSON) ->
  json_Encode VNil = Ok buf ->
  DefaultResponder m r (VChan items closes) w =
  (after w (flat_map (bufferEvents r) (consumed (ctxDone r) items)
            ++ errorEvents "Server Timeout" 504 ++ jsonEvents r buf),
   Ret tt) /\
  writes (errorEvents "Server Timeout" 504 ++ jsonEvents r buf) =
  ["Server Timeout" ++ nl; buf] /\
  statuses (errorEvents "Server Timeout" 504 ++ jsonEvents r buf) =
  504 :: statuses (statusEvents r).
Proof.
  intros Hend Hl Hall Hm Hj. split.
  - unfold DefaultResponder.
    assert (Hes : CTS.Has (GetAcceptedContentType r) ContentTypeEventStream = false).
    { destruct (CTS.Has _ _) eqn:E; [|reflexivity].
      apply Has_Types in E. unfold answeredByJSON in Hall.
      rewrite Forall_forall in Hall. destruct (Hall _ E) as [Hne _].
      now rewrite String.eqb_refl in Hne. }
    rewrite Hes. unfold bind, channelIntoSlice.
    rewrite (sliceLoop_spec r closes items _ _ _ true Hend).
    rewrite negotiate_accepted by exact Hl.
    rewrite (walkTypes_JSON m r VNil buf _ _ Hall Hm Hj).
    rewrite after_after, <- app_assoc. reflexivity.
  - unfold jsonEvents, statusEvents.
    destruct (ctxStatus r); split; reflexivity.
Qed.

(** * Further properties *)

(** ** Sets of content types *)

Lemma allOfTypes_spec (types : list ContentType) (acc : list ContentType) :
  allOfTypes types acc =
  (acc ++ filter (fun y => y ∉ acc) (first_occurrences types))%list.
Proof.
  revert acc. induction types as [|x rest IH]; intros acc; simpl.
  - now rewrite app_nil_r.
  - destruct (existsb (String.eqb x) acc) eqn:Hx.
    + apply existsb_eqb_elem in Hx.
      rewrite IH, filter_cons_False by (intros H; now apply H).
      f_equal. symmetry. apply list_filter_filter_l.
      intros y Hy ->. contradiction.
    + assert (x ∉ acc) as Hx'.
      { intros Hin. apply existsb_eqb_elem in Hin. congruence. }
      rewrite IH, filter_cons_True by exact Hx'.
      rewrite <- app_assoc. simpl. do 2 f_equal.
      rewrite list_filter_filter. apply list_filter_iff.
      intros y. rewrite elem_of_app, list_elem_of_singleton.
      split; [intros H; split; intros ?; apply H; auto | intros [H1 H2] [?|?]; auto].
Qed.

Lemma filter_True_id (l : list string) : filter (fun _ : string => True) l = l.
Proof.
  induction l as [|a l IH]; [reflexivity|].
  rewrite filter_cons_True by exact I. now rewrite IH.
Qed.

Lemma allOfTypes_nil (types : list ContentType) :
  allOfTypes types [] = first_occurrences types.
Proof.
  rewrite allOfTypes_spec. simpl app.
  rewrite (list_filter_iff _ (fun _ => True)); [apply filter_True_id|].
  intros y. rewrite elem_of_nil. split; auto.
Qed.

(** The loop of [NewContentTypeSet] is the loop of [SetOfContentTypes] on
    the types that parse. *)
Lemma allTypes_allOfTypes (types : list string) (acc : list ContentType) :
  allTypes types acc = allOfTypes (omap ParseMediaType types) acc.
Proof.
  revert acc. induction types as [|t rest IH]; intros acc; [reflexivity|].
  simpl. destruct (ParseMediaType t) as [x|]; simpl; [|apply IH].
  destruct (existsb (String.eqb x) acc); apply IH.
Qed.

(** X1. [SetOfContentTypes] keeps each of its arguments once, in the
    order of their first occurrence, with the cursor before the first
    entry; it returns nil exactly when it is given no argument, and [Has]
    finds exactly the arguments. *)
Theorem SetOfContentTypes_first_occurrences (types : list ContentType) :
  CTS.Types (SetOfContentTypes types) = first_occurrences types /\
  NoDup (CTS.Types (SetOfContentTypes types)) /\
  (forall t, CTS.Has (SetOfContentTypes types) t = true <-> t ∈ types) /\
  (SetOfContentTypes types = None <-> types = []) /\
  (forall s, SetOfContentTypes types = Some s -> CTS.pos s = -1).
Proof.
  assert (HT : CTS.Types (SetOfContentTypes types) = first_occurrences types).
  { unfold SetOfContentTypes. destruct types as [|t rest]; [reflexivity|].
    rewrite allOfTypes_nil. destruct (first_occurrences _); reflexivity. }
  split; [exact HT|]. rewrite HT.
  split; [apply first_occurrences_NoDup|].
  split; [intros t; rewrite Has_Types, HT; apply first_occurrences_elem|].
  split.
  - split; [|intros ->; reflexivity].
    destruct types as [|t rest]; [reflexivity|]. intros Hnil. exfalso.
    rewrite Hnil in HT. simpl in HT. discriminate HT.
  - unfold SetOfContentTypes. destruct types as [|t rest]; [discriminate|].
    destruct (allOfTypes (t :: rest) []); [discriminate|].
    intros s [= <-]. reflexivity.
Qed.

(** X2. [NewContentTypeSet] of some strings is [SetOfContentTypes] of the
    media types of those that parse: the same entries, the same cursor,
    and nil in the same cases. *)
Theorem NewContentTypeSet_is_SetOfContentTypes (types : list string) :
  NewContentTypeSet types = SetOfContentTypes (omap ParseMediaType types).
Proof.
  unfold NewContentTypeSet, SetOfContentTypes.
  rewrite allTypes_allOfTypes.
  destruct types as [|t rest]; [reflexivity|].
  destruct (omap ParseMediaType (t :: rest)) as [|x l] eqn:E; reflexivity.
Qed.

(** ** The cursor *)

Lemma walkSet_from (l : list ContentType) :
  is_slice l ->
  forall (rest : list ContentType) (k fuel : nat),
    drop k l = rest ->
    (k <= length l)%nat ->
    (length rest < fuel)%nat ->
    walkSet fuel (Some (CTS.mk l (Z.of_nat k - 1))) =
    Some (rest, Some (CTS.mk l (Z.of_nat (length l)))).
Proof.
  intros Hl. unfold is_slice in Hl.
  induction rest as [|t rest IH]; intros k fuel Hd Hk Hf;
    (destruct fuel as [|fuel]; [simpl in Hf; lia|]);
    pose proof (f_equal length Hd) as Hlen; rewrite length_drop in Hlen;
    simpl in Hlen; cbn [walkSet];
    rewrite Next_at by (unfold int_min, int_max in *; lia).
  - rewrite bool_decide_false by lia.
    do 4 f_equal. lia.
  - rewrite bool_decide_true by lia.
    assert (Hi : l !! k = Some t).
    { rewrite <- (Nat.add_0_r k), <- lookup_drop, Hd. reflexivity. }
    rewrite (Type_at l _ k t Hi) by lia.
    assert (Hd' : drop (S k) l = rest).
    { rewrite (drop_S _ _ _ Hi) in Hd. now injection Hd. }
    replace (Z.of_nat k - 1 + 1) with (Z.of_nat (S k) - 1) by lia.
    rewrite (IH (S k) fuel Hd') by (simpl in Hf; lia). reflexivity.
Qed.

(** X3. Walking a set with [for set.Next() { set.Type() }] from its start
    visits every entry once, in order, and stops; a second walk visits
    nothing unless [Reset] is called first, after which it visits the
    same entries again.  On the nil set the walk visits nothing. *)
Theorem walk_visits_entries_in_order (l : list ContentType) (fuel : nat) :
  Z.of_nat (length l) < int_max ->
  (length l < fuel)%nat ->
  walkSet fuel None = Some ([], None) /\
  exists q,
    walkSet fuel (Some (CTS.mk l (-1))) = Some (l, q) /\
    (exists q', walkSet fuel q = Some ([], q')) /\
    walkSet fuel (CTS.Reset q) = Some (l, q).
Proof.
  intros Hl Hf.
  assert (Hs : is_slice l) by (unfold is_slice; lia).
  split; [destruct fuel; [lia | reflexivity]|].
  exists (Some (CTS.mk l (Z.of_nat (length l)))).
  assert (Hwalk : walkSet fuel (Some (CTS.mk l (-1))) =
                  Some (l, Some (CTS.mk l (Z.of_nat (length l))))).
  { apply (walkSet_from l Hs l 0%nat fuel); [reflexivity | lia | exact Hf]. }
  split; [exact Hwalk | split; [|exact Hwalk]].
  destruct fuel as [|fuel]; [lia|]. cbn [walkSet].
  rewrite Next_at by (unfold int_min, int_max in *; lia).
  rewrite bool_decide_false by lia. eexists. reflexivity.
Qed.

(** X4. No call on the cursor changes the entries of a set: after any
    sequence of [Next] and [Reset], [Types], [Has] and [String] give what
    they gave before, and a nil set stays nil. *)
Theorem cursor_keeps_entries (ops : list CursorOp) (p : CTS.ptr) :
  CTS.Types (fold_left cursorOp ops p) = CTS.Types p /\
  (forall t, CTS.Has (fold_left cursorOp ops p) t = CTS.Has p t) /\
  CTS.String_ (fold_left cursorOp ops p) = CTS.String_ p /\
  (fold_left cursorOp ops p = None <-> p = None).
Proof.
  revert p. induction ops as [|o ops IH]; intros p; [repeat split; auto|].
  cbn [fold_left].
  destruct (IH (cursorOp p o)) as [H1 [H2 [H3 H4]]].
  assert (Hstep : CTS.Types (cursorOp p o) = CTS.Types p /\
                  (forall t, CTS.Has (cursorOp p o) t = CTS.Has p t) /\
                  CTS.String_ (cursorOp p o) = CTS.String_ p /\
                  (cursorOp p o = None <-> p = None)).
  { destruct o, p as [[l k]|]; simpl; repeat split; auto; discriminate. }
  destruct Hstep as [S1 [S2 [S3 S4]]].
  split; [now rewrite H1|]. split; [intros t; now rewrite H2|].
  split; [now rewrite H3|]. now rewrite H4.
Qed.

(** ** From a set to a header and back *)

Lemma Split_noComma (x : string) :
  noComma x = true -> Split x "," = [x].
Proof.
  induction x as [|c x IH]; [reflexivity|]. simpl.
  intros H. apply andb_true_iff in H. destruct H as [Hc Hx].
  apply negb_true_iff in Hc. rewrite Hc, (IH Hx). reflexivity.
Qed.

Lemma Split_field (x rest : string) :
  noComma x = true ->
  Split (x ++ String "," rest) "," = x :: Split rest ",".
Proof.
  induction x as [|c x IH]; [reflexivity|]. simpl.
  intros H. apply andb_true_iff in H. destruct H as [Hc Hx].
  apply negb_true_iff in Hc. rewrite Hc, (IH Hx). reflexivity.
Qed.

Lemma Split_concat (l : list string) :
  l <> [] ->
  Forall (fun x => noComma x = true) l ->
  Split (String.concat "," l) "," = l.
Proof.
  intros Hne Hall. induction Hall as [|x l Hx Hl IH]; [congruence|].
  destruct l as [|y l].
  - simpl. now apply Split_noComma.
  - change (String.concat "," (x :: y :: l))
      with (x ++ String "," (String.concat "," (y :: l))).
    rewrite (Split_field _ _ Hx), IH by discriminate. reflexivity.
Qed.

Lemma omap_canonical (l : list ContentType) :
  Forall canonical l -> omap ParseMediaType l = l.
Proof.
  induction 1 as [|x l Hx _ IH]; [reflexivity|].
  simpl. unfold canonical in Hx. rewrite Hx. f_equal. exact IH.
Qed.

Lemma first_occurrences_NoDup_id (l : list string) :
  NoDup l -> first_occurrences l = l.
Proof.
  induction 1 as [|x l Hx _ IH]; [reflexivity|].
  simpl. rewrite IH. f_equal.
  clear IH. induction l as [|y l IHl]; [reflexivity|].
  rewrite filter_cons_True.
  - f_equal. apply IHl. intros Hin. apply Hx. now right.
  - intros ->. apply Hx. now left.
Qed.

(** X5. A set of canonical types without commas survives the round trip
    through its text: [String] joins the entries by commas, and
    [NewContentTypeSet] on the fields of that text, hence
    [GetAcceptedContentType] on a request that carries it as Accept
    header, gives the set back. *)
Theorem String_Split_round_trip (types : list ContentType) :
  types <> [] ->
  Forall canonical types ->
  Forall (fun t => noComma t = true) types ->
  NewContentTypeSet (Split (CTS.String_ (SetOfContentTypes types)) ",")
    = SetOfContentTypes types /\
  forall r : Request,
    ctxContentType r = None ->
    Header_Get r "Accept" = CTS.String_ (SetOfContentTypes types) ->
    GetAcceptedContentType r = SetOfContentTypes types.
Proof.
  intros Hne Hcan Hcom.
  assert (Hset : SetOfContentTypes types =
                 Some (CTS.mk (first_occurrences types) (-1))).
  { unfold SetOfContentTypes. destruct types as [|t rest]; [congruence|].
    rewrite allOfTypes_nil. reflexivity. }
  assert (Hsub : forall P : string -> Prop,
             Forall P types -> Forall P (first_occurrences types)).
  { intros P HP. rewrite Forall_forall in *. intros x Hx.
    apply HP. now apply first_occurrences_elem. }
  assert (Hfo : first_occurrences types <> []).
  { destruct types; [congruence | discriminate]. }
  assert (Hback : NewContentTypeSet
                    (Split (CTS.String_ (SetOfContentTypes types)) ",")
                  = SetOfContentTypes types).
  { rewrite Hset at 1. cbn [CTS.String_ CTS.set].
    rewrite Split_concat by auto.
    rewrite NewContentTypeSet_is_SetOfContentTypes, omap_canonical by auto.
    rewrite Hset. unfold SetOfContentTypes.
    rewrite allOfTypes_nil.
    rewrite (first_occurrences_NoDup_id _ (first_occurrences_NoDup types)).
    destruct (first_occurrences types); [congruence | reflexivity]. }
  split; [exact Hback|].
  intros r Hctx Hh. unfold GetAcceptedContentType. now rewrite Hctx, Hh.
Qed.

(** X6. [StringHas] on a set built by [NewContentTypeSet] finds a media
    type string exactly when it parses to the media type of one of the
    strings the set was built from; a string that does not parse is never
    found. *)
Theorem StringHas_finds_what_was_given (types : list string) (s : string) :
  (StringHas (NewContentTypeSet types) s = true <->
   exists t, ParseMediaType s = Some t /\
             exists f, f ∈ types /\ ParseMediaType f = Some t) /\
  (ParseMediaType s = None -> StringHas (NewContentTypeSet types) s = false) /\
  (s ∈ types -> ParseMediaType s <> None ->
   StringHas (NewContentTypeSet types) s = true).
Proof.
  assert (Hiff : StringHas (NewContentTypeSet types) s = true <->
            exists t, ParseMediaType s = Some t /\
                      exists f, f ∈ types /\ ParseMediaType f = Some t).
  { unfold StringHas. destruct (ParseMediaType s) as [t|] eqn:Hs.
    - rewrite Has_Types, NewContentTypeSet_Types, first_occurrences_elem.
      rewrite list_elem_of_omap. split.
      + intros Hf. exists t. split; [reflexivity | exact Hf].
      + intros [t' [[= <-] Hf]]. exact Hf.
    - split; [discriminate | intros [t [Ht _]]; discriminate]. }
  split; [exact Hiff | split].
  - intros Hs. unfold StringHas. now rewrite Hs.
  - intros Hin Hp. apply Hiff.
    destruct (ParseMediaType s) as [t|] eqn:Hs; [|congruence].
    exists t. split; [reflexivity|]. exists s. now split.
Qed.

(** ** The order of [sort.Strings] *)

Lemma ascii_compare_refl (a : ascii) : Ascii.compare a a = Eq.
Proof. unfold Ascii.compare. apply N.compare_refl. Qed.

Lemma ascii_compare_lt_trans (a b c : ascii) :
  Ascii.compare a b = Lt -> Ascii.compare b c = Lt -> Ascii.compare a c = Lt.
Proof.
  unfold Ascii.compare. rewrite !N.compare_lt_iff. apply N.lt_trans.
Qed.

Lemma string_compare_le_trans (a b c : string) :
  String.compare a b <> Gt -> String.compare b c <> Gt ->
  String.compare a c <> Gt.
Proof.
  revert b c. induction a as [|x a IH]; intros [|y b] [|z c]; simpl;
    try congruence.
  destruct (Ascii.compare x y) eqn:E1; destruct (Ascii.compare y z) eqn:E2;
    try congruence.
  - apply Ascii.compare_eq_iff in E1, E2. subst.
    rewrite ascii_compare_refl. apply IH.
  - apply Ascii.compare_eq_iff in E1. subst. rewrite E2. congruence.
  - apply Ascii.compare_eq_iff in E2. subst. rewrite E1. congruence.
  - rewrite (ascii_compare_lt_trans _ _ _ E1 E2). congruence.
Qed.

Lemma string_le_compare (a b : string) :
  string_le a b <-> String.compare a b <> Gt.
Proof.
  unfold string_le, String.leb.
  destruct (String.compare a b); split; congruence.
Qed.

#[local] Instance string_le_trans : Transitive string_le.
Proof.
  intros a b c. rewrite !string_le_compare. apply string_compare_le_trans.
Qed.

#[local] Instance string_le_total : Total string_le.
Proof. intros a b. apply String.leb_total. Qed.

#[local] Instance string_le_antisym : AntiSymm (=) string_le.
Proof. intros a b. apply String.leb_antisym. Qed.

(** ** The registries *)

Lemma keys_elem {F : Type} (m : gmap ContentType F) (t : ContentType) :
  t ∈ (map_to_list m).*1 <-> is_Some (m !! t).
Proof.
  rewrite list_elem_of_fmap. split.
  - intros [[k x] [-> Hin]]. apply elem_of_map_to_list in Hin.
    now exists x.
  - intros [x Hx]. exists (t, x). split; [reflexivity|].
    now apply elem_of_map_to_list.
Qed.

(** The supported types of a registry whose keys are canonical are its
    keys in increasing order. *)
Lemma supported_sorted_keys {F : Type} (m : gmap ContentType F) :
  (forall t, is_Some (m !! t) -> canonical t) ->
  CTS.Types (NewContentTypeSet (sort_Strings (map_to_list m).*1))
    = sort_Strings (map_to_list m).*1 /\
  StronglySorted string_le (sort_Strings (map_to_list m).*1) /\
  NoDup (sort_Strings (map_to_list m).*1) /\
  forall t, t ∈ sort_Strings (map_to_list m).*1 <-> is_Some (m !! t).
Proof.
  intros Hcan. unfold sort_Strings.
  assert (Hperm : merge_sort string_le (map_to_list m).*1 ≡ₚ (map_to_list m).*1)
    by apply merge_sort_Permutation.
  assert (Hnd : NoDup (merge_sort string_le (map_to_list m).*1)).
  { rewrite Hperm. apply NoDup_fst_map_to_list. }
  assert (Hel : forall t, t ∈ merge_sort string_le (map_to_list m).*1
                          <-> is_Some (m !! t)).
  { intros t. rewrite Hperm. apply keys_elem. }
  split; [|split; [apply StronglySorted_merge_sort; apply _ | split; assumption]].
  rewrite NewContentTypeSet_Types, omap_canonical.
  - now apply first_occurrences_NoDup_id.
  - apply Forall_forall. intros t Ht. apply Hcan. now apply Hel.
Qed.

(** X7. [SupportedResponders] and [SupportedDecoders] give a sorted
    snapshot: when the keys of the registry are canonical media types,
    the set holds exactly the keys, each once, in increasing byte-wise
    order, with the cursor before the first. *)
Theorem Supported_sorted_snapshot
  (m : gmap ContentType (option RespondFunc))
  (md : gmap ContentType (option DecodeFunc)) :
  (forall t, is_Some (m !! t) -> canonical t) ->
  (forall t, is_Some (md !! t) -> canonical t) ->
  (StronglySorted string_le (CTS.Types (SupportedResponders m)) /\
   NoDup (CTS.Types (SupportedResponders m)) /\
   forall t, CTS.Has (SupportedResponders m) t = true <-> is_Some (m !! t)) /\
  (StronglySorted string_le (CTS.Types (SupportedDecoders md)) /\
   NoDup (CTS.Types (SupportedDecoders md)) /\
   forall t, CTS.Has (SupportedDecoders md) t = true <-> is_Some (md !! t)).
Proof.
  intros Hm Hmd.
  destruct (supported_sorted_keys m Hm) as [E1 [S1 [N1 M1]]].
  destruct (supported_sorted_keys md Hmd) as [E2 [S2 [N2 M2]]].
  unfold SupportedResponders, SupportedDecoders.
  split; (split; [|split]); rewrite ?E1, ?E2; try assumption.
  - intros t. rewrite Has_Types, E1. apply M1.
  - intros t. rewrite Has_Types, E2. apply M2.
Qed.

Lemma sorted_keys_insert_present {F : Type} (m : gmap ContentType F)
  (t : ContentType) (x : F) :
  is_Some (m !! t) ->
  sort_Strings (map_to_list (<[t := x]> m)).*1 = sort_Strings (map_to_list m).*1.
Proof.
  intros Ht. unfold sort_Strings.
  apply (Sorted_unique string_le).
  - apply Sorted_merge_sort. apply _.
  - apply Sorted_merge_sort. apply _.
  - rewrite !merge_sort_Permutation.
    apply NoDup_Permutation; try apply NoDup_fst_map_to_list.
    intros k. rewrite !keys_elem.
    destruct (decide (k = t)) as [->|Hne].
    + rewrite lookup_insert_eq. split; [intros _; exact Ht | intros _; eauto].
    + now rewrite lookup_insert_ne by congruence.
Qed.

(** X8. Registering again for a type that has an entry changes no
    supported set: [SupportedResponders] after [SetResponder(t, fn)] is
    what it was before, whatever [fn] is, and [SupportedDecoders] after
    [SetDecoder(t, d)] likewise; the later registration is the one that
    stays. *)
Theorem registering_again_keeps_supported
  (m : gmap ContentType (option RespondFunc))
  (md : gmap ContentType (option DecodeFunc)) (t : ContentType)
  (fn fn' : option RespondFunc) (d : option DecodeFunc) :
  (is_Some (m !! t) ->
   SupportedResponders (SetResponder t fn m) = SupportedResponders m) /\
  (is_Some (md !! t) ->
   SupportedDecoders (SetDecoder t d md) = SupportedDecoders md) /\
  SupportedResponders (SetResponder t fn (SetResponder t fn' m))
    = SupportedResponders (SetResponder t fn' m) /\
  SetResponder t fn (SetResponder t fn' m) !! t = Some fn.
Proof.
  split; [|split; [|split]].
  - intros Ht. unfold SupportedResponders, SetResponder.
    now rewrite sorted_keys_insert_present.
  - intros Ht. unfold SupportedDecoders, SetDecoder.
    now rewrite sorted_keys_insert_present.
  - unfold SupportedResponders, SetResponder.
    rewrite sorted_keys_insert_present; [reflexivity|].
    rewrite lookup_insert_eq. eauto.
  - unfold SetResponder. apply lookup_insert_eq.
Qed.

(** ** The recorder *)

Lemma record_wrote (es : list Event) (rw : Recorder) (s : Z * gmap string string) :
  wroteHeader rw = Some s ->
  wroteHeader (fold_left record es rw) = Some s.
Proof.
  revert rw. induction es as [|e es IH]; intros rw H; [exact H|].
  cbn [fold_left]. apply IH.
  destruct e; simpl; unfold snap; rewrite ?H; reflexivity.
Qed.

Lemma record_before (pre : list Event) (rw : Recorder) :
  forallb beforeHeader pre = true ->
  wroteHeader (fold_left record pre rw) = wroteHeader rw.
Proof.
  revert rw. induction pre as [|e pre IH]; intros rw H; [reflexivity|].
  simpl in H. apply andb_true_iff in H. destruct H as [He Hpre].
  cbn [fold_left]. rewrite (IH _ Hpre).
  destruct e; simpl in *; try reflexivity; discriminate.
Qed.

(** The status a recorder shows is the first one written. *)
Lemma Result_first_status (pre es : list Event) (code : Z) :
  forallb beforeHeader pre = true ->
  resp_Code (Result (pre ++ WriteHeader code :: es)) = code.
Proof.
  intros Hpre. unfold Result. rewrite fold_left_app. cbn [fold_left].
  rewrite (record_wrote es _ (code, HeaderMap (fold_left record pre NewRecorder))).
  - reflexivity.
  - cbn [record wroteHeader]. unfold snap.
    rewrite (record_before pre NewRecorder Hpre). reflexivity.
Qed.

(** A body written before any status goes out with 200. *)
Lemma Result_implicit_status (pre es : list Event) (b : string) :
  forallb beforeHeader pre = true ->
  resp_Code (Result (pre ++ Write b :: es)) = 200.
Proof.
  intros Hpre. unfold Result. rewrite fold_left_app. cbn [fold_left].
  rewrite (record_wrote es _ (200, HeaderMap (fold_left record pre NewRecorder))).
  - reflexivity.
  - cbn [record wroteHeader]. unfold snap.
    rewrite (record_before pre NewRecorder Hpre). reflexivity.
Qed.

(** ** The order of negotiation *)

Lemma walkTypes_passedOver (m : gmap ContentType (option RespondFunc))
  (r : Request) (v : Value) (pre l : list ContentType) (w : ResponseWriter) :
  passedOver m pre ->
  walkTypes m r v (pre ++ l) w = walkTypes m r v l w.
Proof.
  induction 1 as [|t pre Ht _ IH]; [reflexivity|].
  cbn [app walkTypes]. destruct Ht as [Ht | Ht]; rewrite Ht; [exact IH|].
  now destruct (String.eqb t ContentTypeEventStream).
Qed.

(** X9. The accepted types are tried in the order of the client: the
    first one that has an entry in the registry (the event stream apart,
    which is passed over for a value that is no channel) answers, and
    when its responder returns no error nothing else is written: neither
    the later types nor the default responder are called. *)
Theorem first_registered_type_answers
  (m : gmap ContentType (option RespondFunc)) (r : Request) (v : Value)
  (pre rest : list ContentType) (t : ContentType) (fn : RespondFunc)
  (w w' : ResponseWriter) :
  isChan v = false ->
  CTS.Types (GetAcceptedContentType r) = (pre ++ t :: rest)%list ->
  is_slice (pre ++ t :: rest)%list ->
  passedOver m pre ->
  String.eqb t ContentTypeEventStream = false ->
  m !! t = Some (Some fn) ->
  fn r v w = (w', Ret None) ->
  DefaultResponder m r v w = (w', Ret tt).
Proof.
  intros Hv HT Hl Hpre Ht Hm Hfn.
  rewrite DefaultResponder_walk by (rewrite ?HT; assumption).
  rewrite HT, walkTypes_passedOver by exact Hpre.
  cbn [walkTypes]. rewrite Ht, Hm. unfold bind. cbn [call].
  now rewrite Hfn.
Qed.

(** X10. An error of a responder that is not [ErrCanNotEncodeObject] ends
    the negotiation: [DefaultResponder] writes the 500 response with the
    text of the error and tries no later type.  So an XML marshalling
    failure for a client that accepts text/xml first is answered by 500
    and the text [XML marshal: ...], also when JSON could have encoded
    the value. *)
Theorem other_error_is_terminal
  (m : gmap ContentType (option RespondFunc)) (r : Request) (v : Value)
  (pre rest : list ContentType) (t : ContentType) (w : ResponseWriter) :
  isChan v = false ->
  CTS.Types (GetAcceptedContentType r) = (pre ++ t :: rest)%list ->
  is_slice (pre ++ t :: rest)%list ->
  passedOver m pre ->
  String.eqb t ContentTypeEventStream = false ->
  (forall (fn : RespondFunc) (e : error) (w' : ResponseWriter),
      m !! t = Some (Some fn) ->
      fn r v w = (w', Ret (Some e)) ->
      Is_ErrCanNotEncodeObject e = false ->
      DefaultResponder m r v w
        = (after w' (errorEvents (Error e) 500), Ret tt)) /\
  (forall e : error,
      m !! t = Some (Some XML) ->
      xml_Marshal v = Err e ->
      Is_ErrCanNotEncodeObject e = false ->
      DefaultResponder m r v w
        = (after w (errorEvents ("XML marshal: " ++ Error e) 500), Ret tt) /\
      resp_Code (Result (errorEvents ("XML marshal: " ++ Error e) 500)) = 500 /\
      resp_Body (Result (errorEvents ("XML marshal: " ++ Error e) 500))
        = "XML marshal: " ++ Error e ++ nl).
Proof.
  intros Hv HT Hl Hpre Ht.
  assert (Hgen : forall (fn : RespondFunc) (e : error) (w' : ResponseWriter),
      m !! t = Some (Some fn) ->
      fn r v w = (w', Ret (Some e)) ->
      Is_ErrCanNotEncodeObject e = false ->
      DefaultResponder m r v w
        = (after w' (errorEvents (Error e) 500), Ret tt)).
  { intros fn e w' Hm Hfn He.
    rewrite DefaultResponder_walk by (rewrite ?HT; assumption).
    rewrite HT, walkTypes_passedOver by exact Hpre.
    cbn [walkTypes]. rewrite Ht, Hm. unfold bind. cbn [call].
    rewrite Hfn, He. reflexivity. }
  split; [exact Hgen|].
  intros e Hm Hx He. split; [|split].
  - apply (Hgen XML (ErrWrap "XML marshal" e) w Hm).
    + unfold XML. now rewrite Hx.
    + exact He.
  - apply (Result_first_status
             [DelHeader "Content-Length";
              SetHeader "Content-Type" "text/plain; charset=utf-8";
              SetHeader "X-Content-Type-Options" "nosniff"]).
    reflexivity.
  - reflexivity.
Qed.

(** ** Channels through [DefaultResponder] *)

(** What buffering shows when no item is a renderer. *)
Lemma bufferEvents_projections (r : Request) (l : list Value) :
  Forall (fun v => renderer r v = None) l ->
  map (rendered r) l = l /\
  writes (flat_map (bufferEvents r) l) = [] /\
  received (flat_map (bufferEvents r) l) = l.
Proof.
  induction 1 as [|v l Hv _ [IH1 [IH2 IH3]]]; [repeat split|].
  cbn [map flat_map]. unfold writes, received in *.
  rewrite !omap_app, IH1, IH2, IH3.
  unfold bufferEvents, renderEvents, rendered. rewrite Hv.
  repeat split.
Qed.

(** X11. A channel for a client that does not accept the event stream is
    buffered: when the producer closes it before the context is
    cancelled, [DefaultResponder] negotiates for the slice of its items,
    in the order sent, each renderer item replaced by its error when
    rendering fails; buffering itself writes only what the renderers
    write.  With JSON answering, the response is the JSON encoding of
    that slice. *)
Theorem closed_channel_is_answered_as_slice
  (m : gmap ContentType (option RespondFunc)) (r : Request)
  (items : list Value) (closes : bool) (w : ResponseWriter) :
  loopEnd (ctxDone r) items closes = Some false ->
  CTS.Has (GetAcceptedContentType r) ContentTypeEventStream = false ->
  is_slice (CTS.Types (GetAcceptedContentType r)) ->
  channelIntoSlice r (VChan items closes) w
    = (after w (flat_map (bufferEvents r) items),
       Ret (VSlice (map (rendered r) items))) /\
  DefaultResponder m r (VChan items closes) w
    = walkTypes m r (VSlice (map (rendered r) items))
                (CTS.Types (GetAcceptedContentType r))
                (after w (flat_map (bufferEvents r) items)) /\
  (forall buf : string,
      answeredByJSON m (CTS.Types (GetAcceptedContentType r)) ->
      m !! ContentTypeDefault = Some (Some JSON) ->
      json_Encode (VSlice (map (rendered r) items)) = Ok buf ->
      DefaultResponder m r (VChan items closes) w
        = (after w (flat_map (bufferEvents r) items ++ jsonEvents r buf),
           Ret tt)) /\
  (Forall (fun v => renderer r v = None) items ->
   map (rendered r) items = items /\
   writes (flat_map (bufferEvents r) items) = [] /\
   received (flat_map (bufferEvents r) items) = items).
Proof.
  intros Hend Hes Hl.
  assert (Hbuf : channelIntoSlice r (VChan items closes) w
    = (after w (flat_map (bufferEvents r) items),
       Ret (VSlice (map (rendered r) items)))).
  { unfold channelIntoSlice.
    now rewrite (sliceLoop_spec r closes items _ _ _ false Hend). }
  assert (Hrun : DefaultResponder m r (VChan items closes) w
    = walkTypes m r (VSlice (map (rendered r) items))
                (CTS.Types (GetAcceptedContentType r))
                (after w (flat_map (bufferEvents r) items))).
  { unfold DefaultResponder. rewrite Hes. unfold bind. rewrite Hbuf.
    now apply negotiate_accepted. }
  split; [exact Hbuf | split; [exact Hrun | split]].
  - intros buf Hall Hm Hj. rewrite Hrun.
    rewrite (walkTypes_JSON m r _ buf _ _ Hall Hm Hj).
    now rewrite after_after.
  - apply bufferEvents_projections.
Qed.

Lemma channelEventStream_run (r : Request) (items : list Value)
  (closes cancelled : bool) (w : ResponseWriter) :
  loopEnd (ctxDone r) items closes = Some cancelled ->
  channelEventStream r (VChan items closes) w
    = (after w (streamHead r
                ++ flat_map (itemEvents r (Flusher w)) (consumed (ctxDone r) items)
                ++ [Write (terminalFrame cancelled)]), Ret None).
Proof.
  intros Hend. unfold channelEventStream. unfold bind at 1. rewrite emit_after.
  unfold bind at 1.
  assert (Hconn : (if bool_decide (ProtoMajor r = 1)
                   then emit [SetHeader "Connection" "keep-alive"]
                   else ret tt)
            (after w [SetHeader "Content-Type" "text/event-stream; charset=utf-8";
                      SetHeader "Cache-Control" "no-cache"]) =
          (after w ([SetHeader "Content-Type" "text/event-stream; charset=utf-8";
                     SetHeader "Cache-Control" "no-cache"]
                    ++ (if bool_decide (ProtoMajor r = 1)
                        then [SetHeader "Connection" "keep-alive"] else [])),
           Ret tt)).
  { case_bool_decide; run; reflexivity. }
  rewrite Hconn. unfold bind. rewrite emit_after.
  rewrite (eventLoop_spec r closes items _ _ cancelled Hend).
  rewrite !after_after. cbn [Flusher after].
  unfold streamHead. now rewrite <- !app_assoc.
Qed.

(** X12. A channel is streamed as soon as the client accepts the event
    stream, wherever that type stands in its Accept header: the types
    before it are not tried, no responder but [channelEventStream] is
    called, and the status is 200 whatever status hint the request
    carries.  Only HTTP/1 requests get the Connection header. *)
Theorem channel_is_streamed_when_accepted
  (m : gmap ContentType (option RespondFunc)) (r : Request)
  (items : list Value) (closes cancelled : bool) (w : ResponseWriter) :
  CTS.Has (GetAcceptedContentType r) ContentTypeEventStream = true ->
  m !! ContentTypeEventStream = Some (Some channelEventStream) ->
  loopEnd (ctxDone r) items closes = Some cancelled ->
  let es := (streamHead r
             ++ flat_map (itemEvents r (Flusher w)) (consumed (ctxDone r) items)
             ++ [Write (terminalFrame cancelled)])%list in
  DefaultResponder m r (VChan items closes) w = (after w es, Ret tt) /\
  resp_Code (Result es) = 200 /\
  (In (SetHeader "Connection" "keep-alive") (streamHead r)
   <-> ProtoMajor r = 1).
Proof.
  intros Hes Hm Hend es. split; [|split].
  - unfold DefaultResponder. rewrite Hes, Hm. unfold bind. cbn [call].
    now rewrite (channelEventStream_run r items closes cancelled w Hend).
  - subst es. unfold streamHead. rewrite <- !app_assoc.
    case_bool_decide.
    + apply (Result_first_status
               [SetHeader "Content-Type" "text/event-stream; charset=utf-8";
                SetHeader "Cache-Control" "no-cache";
                SetHeader "Connection" "keep-alive"]). reflexivity.
    + apply (Result_first_status
               [SetHeader "Content-Type" "text/event-stream; charset=utf-8";
                SetHeader "Cache-Control" "no-cache"]). reflexivity.
  - unfold streamHead. case_bool_decide as H1; simpl; split.
    + intros _. exact H1.
    + intros _. right. right. left. reflexivity.
    + intros [H'|[H'|[H'|[]]]]; discriminate H'.
    + intros H'. contradiction.
Qed.

(** ** The responders of the package *)

(** A responder of the package either fails before it touches the sink,
    or writes its headers, the status hint and its body. *)
Lemma builtin_outcome (fn : RespondFunc) (r : Request) (v : Value)
  (w : ResponseWriter) :
  builtin fn ->
  (exists e, fn r v w = (w, Ret (Some e))) \/
  (exists contentType bodies,
      bodies <> [] /\
      fn r v w = (after w (responderEvents contentType r bodies), Ret None)).
Proof.
  assert (Htext : forall (ct txt : string),
    (setNosniff ;; emit [SetHeader "Content-Type" ct] ;; writeStatus r ;;
     emit [Write txt] ;; ret None) w
    = (after w (responderEvents ct r [txt]), Ret (@None error))).
  { intros ct txt. unfold responderEvents. run.
    now rewrite <- ?app_assoc. }
  intros [-> | [-> | [-> | ->]]].
  - unfold JSON. destruct (json_Encode v) as [buf|e].
    + right. exists "application/json; charset=utf-8", [buf].
      split; [discriminate | apply Htext].
    + left. eexists. reflexivity.
  - unfold XML. destruct (xml_Marshal v) as [b|e].
    + right. exists "application/xml; charset=utf-8".
      destruct (Contains (slice_to b
                 (if bool_decide (len b > 100) then 100 else len b)) "<?xml");
        simpl negb; cbv iota.
      * exists [b]. split; [discriminate|]. unfold responderEvents. run.
        now rewrite <- ?app_assoc.
      * exists [xml_Header; b]. split; [discriminate|].
        unfold responderEvents. run. now rewrite <- ?app_assoc.
    + left. eexists. reflexivity.
  - unfold PlainText.
    destruct v as [| s | e | [n [[t|e]|] [s|]] | l | items closes];
      try (left; eexists; reflexivity);
      right; eexists _, [_]; (split; [discriminate | apply Htext]).
  - unfold HTML.
    destruct v as [| s | e | [n [[t|e]|] [s|]] | l | items closes];
      try (left; eexists; reflexivity);
      right; eexists _, [_]; (split; [discriminate | apply Htext]).
Qed.

Lemma responderEvents_projections (ct : string) (r : Request)
  (bodies : list string) :
  writes (responderEvents ct r bodies) = bodies /\
  statuses (responderEvents ct r bodies) = statuses (statusEvents r).
Proof.
  unfold responderEvents, writes, statuses. rewrite !omap_app.
  assert (H1 : forall l : list string,
             omap (fun e => match e with Write b => Some b | _ => None end)
                  (map Write l) = l).
  { induction l as [|b l IH]; [reflexivity|]. simpl. now f_equal. }
  assert (H2 : forall l : list string,
             omap (fun e => match e with WriteHeader c => Some c | _ => None end)
                  (map Write l) = []).
  { induction l as [|b l IH]; [reflexivity|]. exact IH. }
  rewrite H1, H2. unfold statusEvents.
  destruct (ctxStatus r); simpl; rewrite ?app_nil_r; split; reflexivity.
Qed.

(** X13. [JSON], [XML], [PlainText] and [HTML] never write before they
    fail: a call that returns an error has left the sink as it was.  A
    call that returns nil, the status hint being a code that
    [WriteHeader] accepts, has written a body and no status but the
    status hint. *)
Theorem builtin_responders_fail_before_writing
  (fn : RespondFunc) (r : Request) (v : Value) (w w' : ResponseWriter)
  (res : option error) :
  builtin fn ->
  fn r v w = (w', Ret res) ->
  (res <> None -> w' = w) /\
  (validHint r -> res = None ->
   exists es, w' = after w es /\ writes es <> [] /\
              statuses es = statuses (statusEvents r)).
Proof.
  intros Hb Hrun. destruct (builtin_outcome fn r v w Hb)
    as [[e He] | [ct [bodies [Hne Hok]]]].
  - rewrite He in Hrun. injection Hrun as <- <-.
    split; [reflexivity | discriminate].
  - rewrite Hok in Hrun. injection Hrun as <- <-.
    split; [congruence|]. intros _ _.
    exists (responderEvents ct r bodies).
    destruct (responderEvents_projections ct r bodies) as [Hw Hs].
    split; [reflexivity|]. split; [now rewrite Hw | exact Hs].
Qed.

(** X14. [Status] puts a status hint into the request, the later hint
    replacing the earlier, without touching anything else of the request;
    every responder of the package that succeeds on a fresh sink then
    answers with that status.  (net/http refuses codes outside 100..999.) *)
Theorem status_hint_is_the_status
  (fn : RespondFunc) (r : Request) (s1 s2 : Z) (v : Value) (fl : bool)
  (w' : ResponseWriter) :
  100 <= s2 <= 999 ->
  builtin fn ->
  fn (Status (Status r s1) s2) v (mkWriter fl []) = (w', Ret None) ->
  resp_Code (Result (log w')) = s2 /\
  statuses (log w') = [s2] /\
  GetAcceptedContentType (Status (Status r s1) s2) = GetAcceptedContentType r /\
  (forall dflt, GetRequestContentType (Status (Status r s1) s2) dflt
                = GetRequestContentType r dflt).
Proof.
  intros _ Hb Hrun.
  destruct (builtin_outcome fn (Status (Status r s1) s2) v (mkWriter fl []) Hb)
    as [[e He] | [ct [bodies [Hne Hok]]]]; [congruence|].
  rewrite Hok in Hrun. injection Hrun as <-.
  cbn [after log app]. split; [|split; [|split; reflexivity]].
  - unfold responderEvents, statusEvents. cbn [Status ctxStatus].
    apply (Result_first_status
             [SetHeader "X-Content-Type-Options" "nosniff";
              SetHeader "Content-Type" ct]). reflexivity.
  - destruct (responderEvents_projections ct (Status (Status r s1) s2) bodies)
      as [_ Hs]. rewrite Hs. reflexivity.
Qed.

(** ** Forcing the content type *)

(** X15. Behind [SetContentType(ct)] the Accept and Content-Type headers
    of the request no longer count: for a canonical [ct] the accepted set
    is [ct] alone, so the responder registered for [ct] answers whatever
    the client accepts, and [GetRequestContentType] returns [ct].  An
    empty [ct] is different on the two sides: the request content type
    falls back to the header, while the accepted set becomes nil and the
    default responder answers. *)
Theorem SetContentType_overrides_headers
  (m : gmap ContentType (option RespondFunc)) (r : Request)
  (ct : ContentType) (v : Value) (w : ResponseWriter) :
  isChan v = false ->
  (canonical ct ->
   GetAcceptedContentType (withContentType ct r) = Some (CTS.mk [ct] (-1)) /\
   (ct <> "" -> forall dflt,
       GetRequestContentType (withContentType ct r) dflt = ct) /\
   (forall (fn : RespondFunc) (w' : ResponseWriter),
       String.eqb ct ContentTypeEventStream = false ->
       m !! ct = Some (Some fn) ->
       fn (withContentType ct r) v w = (w', Ret None) ->
       SetContentType ct (fun r' => DefaultResponder m r' v) r w
         = (w', Ret tt))) /\
  (ParseMediaType "" = None ->
   GetAcceptedContentType (withContentType "" r) = None /\
   (forall dflt, GetRequestContentType (withContentType "" r) dflt
                 = GetRequestContentType
                     (mkRequest (Header r) None (ctxStatus r) (ctxDone r)
                                (ProtoMajor r) (Body r)) dflt) /\
   SetContentType "" (fun r' => DefaultResponder m r' v) r w
     = respondDefault m (withContentType "" r) v w).
Proof.
  intros Hv. split.
  - intros Hcan.
    assert (Hacc : GetAcceptedContentType (withContentType ct r)
                   = Some (CTS.mk [ct] (-1))).
    { unfold GetAcceptedContentType, withContentType. cbn [ctxContentType].
      unfold NewContentTypeSet. cbn [allTypes]. unfold canonical in Hcan.
      rewrite Hcan. reflexivity. }
    split; [exact Hacc | split].
    + intros Hne dflt. unfold GetRequestContentType, withContentType.
      cbn [ctxContentType].
      apply String.eqb_neq in Hne. now rewrite Hne.
    + intros fn w' Hes Hm Hfn. unfold SetContentType.
      rewrite DefaultResponder_walk
        by (first [assumption
                  | rewrite Hacc; unfold is_slice, int_max; simpl; lia]).
      rewrite Hacc. cbn [CTS.Types CTS.set walkTypes].
      rewrite Hes, Hm. unfold bind. cbn [call]. now rewrite Hfn.
  - intros Hempty.
    assert (Hacc : GetAcceptedContentType (withContentType "" r) = None).
    { unfold GetAcceptedContentType, withContentType. cbn [ctxContentType].
      unfold NewContentTypeSet. cbn [allTypes]. now rewrite Hempty. }
    split; [exact Hacc | split; [reflexivity|]].
    unfold SetContentType, DefaultResponder. rewrite Hacc.
    destruct v; try reflexivity. discriminate Hv.
Qed.

(** ** Decoding *)

(** X16. [DefaultDecoder] decodes the body with the decoder registered
    for the content type of the request: after [SetDecoder(t, f)] a
    request of type [t] is decoded by [f] and requests of other types are
    decoded as before; a type without decoder, such as that of a request
    without Content-Type header, gives an error that names the type and
    no decoder is called. *)
Theorem DefaultDecoder_uses_the_registered_decoder
  (md : gmap ContentType (option DecodeFunc)) (t : ContentType)
  (f : DecodeFunc) (d : option DecodeFunc) (r : Request) :
  (GetRequestContentType r ContentTypeNone = t ->
   DefaultDecoder (SetDecoder t (Some f) md) r = f (Body r)) /\
  (GetRequestContentType r ContentTypeNone <> t ->
   DefaultDecoder (SetDecoder t d md) r = DefaultDecoder md r) /\
  (md !! GetRequestContentType r ContentTypeNone = None ->
   DefaultDecoder md r =
   Err (ErrNew ("render: unable to automatically decode the request content type: '"
                ++ GetRequestContentType r ContentTypeNone ++ "'"))) /\
  (ctxContentType r = None -> Header r !! "Content-Type" = None ->
   ParseMediaType "" = None ->
   GetRequestContentType r ContentTypeNone = "" /\
   DefaultDecoder decodeMapper r =
   Err (ErrNew "render: unable to automatically decode the request content type: ''")).
Proof.
  split; [|split; [|split]].
  - intros Hct. unfold DefaultDecoder, SetDecoder. rewrite Hct.
    now rewrite lookup_insert_eq.
  - intros Hct. unfold DefaultDecoder, SetDecoder.
    now rewrite lookup_insert_ne by congruence.
  - intros Hm. unfold DefaultDecoder, DecodeFunc in *. cbv zeta.
    now rewrite Hm.
  - intros Hctx Hh Hp.
    assert (Hct : GetRequestContentType r ContentTypeNone = "").
    { unfold GetRequestContentType, GetContentType, Header_Get.
      rewrite Hctx, Hh. cbn [default]. now rewrite Hp. }
    split; [exact Hct|]. unfold DefaultDecoder. rewrite Hct. reflexivity.
Qed.

(** ** Entries and the strings they come from *)

(** X17. The entries of a set built by [NewContentTypeSet] are exactly
    the content types that [Is] one of the strings it was built from,
    which are the types [ContentTypeFromString] returns for them; no
    content type [Is] a string that does not parse. *)
Theorem entries_are_the_types_of_the_strings
  (types : list string) (t : ContentType) :
  (t ∈ CTS.Types (NewContentTypeSet types) <->
   exists f, f ∈ types /\ Is t f = true) /\
  (forall f, Is t f = true <-> ContentTypeFromString f = Ok t) /\
  (forall f, ParseMediaType f = None -> Is t f = false).
Proof.
  assert (HIs : forall f, Is t f = true <-> ParseMediaType f = Some t).
  { intros f. unfold Is. destruct (ParseMediaType f) as [x|].
    - rewrite String.eqb_eq. split; [intros ->; reflexivity | now intros [= ->]].
    - split; discriminate. }
  split; [|split].
  - rewrite NewContentTypeSet_Types, first_occurrences_elem, list_elem_of_omap.
    split; intros [f [Hin Hf]]; exists f; (split; [exact Hin|]);
      now apply HIs.
  - intros f. rewrite HIs. unfold ContentTypeFromString.
    destruct (ParseMediaType f) as [x|]; split; intros H; inversion H;
      reflexivity.
  - intros f Hf. unfold Is. now rewrite Hf.
Qed.

(** ** What registrations cannot do *)

Lemma registerAll_keeps_keys (regs : list (ContentType * option RespondFunc))
  (m : gmap ContentType (option RespondFunc)) (t : ContentType) :
  is_Some (m !! t) -> is_Some (registerAll regs m !! t).
Proof.
  revert m. induction regs as [|[k fn] regs IH]; intros m Ht; [exact Ht|].
  unfold registerAll. cbn [fold_left]. apply IH.
  unfold SetResponder. cbn [fst snd].
  destruct (decide (t = k)) as [->|Hne].
  - rewrite lookup_insert_eq. eauto.
  - now rewrite lookup_insert_ne by congruence.
Qed.

(** X18. [SetResponder] never removes a key: after any sequence of
    registrations every type that had an entry still has one (a nil one
    at worst), so the types of the startup registry stay supported for
    good.  In particular the event stream keeps its entry: a channel
    whose client accepts the event stream always goes to that entry,
    and the [Unlock] of the read-locked mutex, which lies behind a
    missing entry, is never reached. *)
Theorem registrations_never_remove_a_key
  (regs : list (ContentType * option RespondFunc))
  (m : gmap ContentType (option RespondFunc)) (t : ContentType) :
  is_Some (m !! t) ->
  is_Some (registerAll regs m !! t) /\
  (canonical t ->
   CTS.Has (SupportedResponders (registerAll regs m)) t = true) /\
  (forall (r : Request) (items : list Value) (closes : bool),
     CTS.Has (GetAcceptedContentType r) ContentTypeEventStream = true ->
     exists fn : option RespondFunc,
       registerAll regs respondMapper !! ContentTypeEventStream = Some fn /\
       DefaultResponder (registerAll regs respondMapper) r
                        (VChan items closes)
       = (err <- call fn r (VChan items closes) ;; reportError err)%go).
Proof.
  intros Ht.
  pose proof (registerAll_keeps_keys regs m t Ht) as Hk.
  split; [exact Hk | split].
  - intros Hcan. apply Has_Types. destruct Hk as [fn Hfn].
    unfold SupportedResponders. now apply (supported_key _ t fn).
  - intros r items closes Hacc.
    destruct (registerAll_keeps_keys regs respondMapper
                ContentTypeEventStream) as [fn Hfn].
    { eexists. reflexivity. }
    exists fn. split; [exact Hfn|].
    unfold DefaultResponder. cbv zeta. rewrite Hacc.
    unfold RespondFunc in *. now rewrite Hfn.
Qed.

End Render.

(** * The package at the reference codecs *)

Abbreviation refResponders :=
  (respondMapper Ref.json_Encode Ref.json_Marshal Ref.xml_Marshal Ref.renderer).
Abbreviation refDecoders := (decodeMapper Ref.json_Decode Ref.xml_Decode).
Abbreviation refRespond := (DefaultResponder Ref.ParseMediaType Ref.renderer).
Abbreviation refAccepted := (GetAcceptedContentType Ref.ParseMediaType).

(** C10 at a channel, which [encoding/json] does not support. *)
Lemma JSON_error_writes_nothing_witness :
  Ref.json_Encode (VChan [] true)
    = Err (ErrNew "json: unsupported type: chan interface {}") /\
  JSON Ref.json_Encode Ex.bare (VChan [] true) Ex.recorder
    = (Ex.recorder,
       Ret (Some (ErrWrap "JSON encode"
                    (ErrNew "json: unsupported type: chan interface {}")))) /\
  log (fst (JSON Ref.json_Encode Ex.bare (VChan [] true) Ex.recorder)) = [].
Proof.
  split; [reflexivity|].
  pose proof (JSON_error_writes_nothing Ref.json_Encode Ex.bare (VChan [] true)
                (ErrNew "json: unsupported type: chan interface {}")
                Ex.recorder eq_refl) as [H1 [H2 _]].
  split; [exact H1 | exact H2].
Defined.

(** C9 at a value that marshals with its own declaration: the response
    body is the marshalled document, with that one declaration. *)
Lemma XML_declaration_once_witness :
  Ref.xml_Marshal Ex.ownDeclaration = Ok (xml_Header ++ "<a></a>") /\
  String.prefix "<?xml" (xml_Header ++ "<a></a>") = true /\
  writes (log (fst (XML Ref.xml_Marshal Ex.bare Ex.ownDeclaration Ex.recorder)))
    = [xml_Header ++ "<a></a>"].
Proof.
  split; [reflexivity|]. split; [reflexivity|].
  exact (proj2 (proj2 (XML_declaration_once Ref.xml_Marshal Ex.bare
                         Ex.ownDeclaration (xml_Header ++ "<a></a>")
                         Ex.recorder eq_refl)) eq_refl).
Defined.

(** C8 at a set of two types and five calls of [Next]. *)
Lemma Next_Type_clamped_witness :
  CTS.Type_ (CTS.Reset (Some (CTS.mk ["text/xml"; "text/html"] 1)))
    = Ret "text/xml" /\
  fst (CTS.Next (nexts 5 (CTS.Reset (Some (CTS.mk ["text/xml"; "text/html"] 1)))))
    = false /\
  exists x, last ["text/xml"; "text/html"] = Some x /\
    CTS.Type_ (nexts 6 (CTS.Reset (Some (CTS.mk ["text/xml"; "text/html"] 1))))
      = Ret x.
Proof.
  destruct (proj2 Next_Type_clamped "text/xml" ["text/html"]
              (CTS.mk ["text/xml"; "text/html"] 1) eq_refl) as [H0 Hn].
  split; [exact H0|].
  apply (Hn 5%nat).
  - simpl. lia.
  - unfold int_max. lia.
Defined.

(** C3 at the header of the example. *)
Lemma accepted_set_first_occurrences_witness :
  ctxContentType
    (Ex.request "application/json, text/html;q=0.9, application/json" None None)
    = None /\
  refAccepted
    (Ex.request "application/json, text/html;q=0.9, application/json" None None)
    = Some (CTS.mk ["application/json"; "text/html"] (-1)).
Proof.
  split; [reflexivity|].
  apply (accepted_set_first_occurrences Ref.ParseMediaType
           (Ex.request "application/json, text/html;q=0.9, application/json"
                       None None) eq_refl);
    reflexivity.
Defined.

(** C7: with an empty Accept header the accepted set is the nil pointer,
    not a set value. *)
Lemma accepted_set_is_nil_counterexample :
  acceptFields Ex.bare = [""] /\
  Ref.ParseMediaType "" = None /\
  refAccepted Ex.bare = None /\
  ~ (exists s : CTS.ContentTypeSet, refAccepted Ex.bare = Some s).
Proof.
  split; [reflexivity|]. split; [reflexivity|]. split; [reflexivity|].
  intros [s Hs]. discriminate Hs.
Qed.

(** C7 (amended) at the empty Accept header and at a header of two
    fields that do not parse. *)
Lemma accepted_set_nil_falls_back_witness :
  Forall (fun f => Ref.ParseMediaType f = None)
         (acceptFields (Ex.request "@, text/" None None)) /\
  refAccepted (Ex.request "@, text/" None None) = None /\
  refRespond refResponders (Ex.request "@, text/" None None)
             (VString "x") Ex.recorder
    = respondDefault refResponders (Ex.request "@, text/" None None)
                     (VString "x") Ex.recorder.
Proof.
  assert (H : Forall (fun f => Ref.ParseMediaType f = None)
                     (acceptFields (Ex.request "@, text/" None None))).
  { repeat constructor. }
  split; [exact H|].
  destruct (accepted_set_nil_falls_back Ref.ParseMediaType Ref.renderer
              (Ex.request "@, text/" None None) eq_refl H) as [Hnil [_ Hfall]].
  split; [exact Hnil|].
  exact (Hfall refResponders (VString "x") Ex.recorder).
Defined.

(** C1: a request that asks for application/pdf alone and carries the
    status hint 404 is answered by the JSON fallback with status 404. *)
Lemma fallback_status_hint_counterexample :
  CTS.Types (refAccepted (Ex.request "application/pdf" (Some 404) None))
    = ["application/pdf"] /\
  refResponders !! "application/pdf" = None /\
  resp_Code (Result (log (fst
    (refRespond refResponders (Ex.request "application/pdf" (Some 404) None)
                (VString "x") Ex.recorder)))) = 404 /\
  resp_Code (Result (log (fst
    (refRespond refResponders (Ex.request "application/pdf" (Some 404) None)
                (VString "x") Ex.recorder)))) <> 200.
Proof.
  split; [reflexivity|]. split; [reflexivity|].
  split; [vm_compute; reflexivity|].
  vm_compute. discriminate.
Qed.

(** C1 (amended) at a request that asks for application/pdf alone. *)
Lemma fallback_to_default_JSON_witness :
  unregistered refResponders
    (CTS.Types (refAccepted (Ex.request "application/pdf" None None))) /\
  refRespond refResponders (Ex.request "application/pdf" None None)
             (VString "x") Ex.recorder
    = (after Ex.recorder
         (jsonEvents (Ex.request "application/pdf" None None)
                     (dq ++ "x" ++ dq ++ nl)), Ret tt) /\
  resp_Code (Result (jsonEvents (Ex.request "application/pdf" None None)
                                (dq ++ "x" ++ dq ++ nl))) = 200 /\
  resp_Header (Result (jsonEvents (Ex.request "application/pdf" None None)
                                  (dq ++ "x" ++ dq ++ nl))) !! "Content-Type"
    = Some "application/json; charset=utf-8" /\
  resp_Body (Result (jsonEvents (Ex.request "application/pdf" None None)
                                (dq ++ "x" ++ dq ++ nl)))
    = dq ++ "x" ++ dq ++ nl.
Proof.
  assert (Hun : unregistered refResponders
            (CTS.Types (refAccepted (Ex.request "application/pdf" None None)))).
  { repeat constructor. }
  assert (Hl : is_slice
            (CTS.Types (refAccepted (Ex.request "application/pdf" None None)))).
  { unfold is_slice, int_max. vm_compute. discriminate. }
  split; [exact Hun|].
  destruct (fallback_to_default_JSON Ref.ParseMediaType Ref.json_Encode
              Ref.renderer refResponders
              (Ex.request "application/pdf" None None) (VString "x")
              Ex.recorder Hl Hun) as [_ [_ [Hjson _]]].
  assert (Hhint : validHint (Ex.request "application/pdf" None None)).
  { intros status Hs. discriminate Hs. }
  destruct (Hjson (dq ++ "x" ++ dq ++ nl) eq_refl eq_refl eq_refl Hhint)
    as [Hrun [_ [Hcode [Hhdr Hbody]]]].
  split; [exact Hrun|]. split; [exact (Hcode eq_refl)|].
  split; [exact Hhdr | exact Hbody].
Defined.

(** C2 at the Accept header of the example, with [PlainText] registered
    for text/plain, and a struct without methods. *)
Lemma decline_tries_next_type_witness :
  notText Ex.plainStruct /\
  PlainText (Ex.request "text/plain, application/json" None None)
            Ex.plainStruct Ex.recorder
    = (Ex.recorder, Ret (Some ErrCanNotEncodeObject)) /\
  refRespond (SetResponder ContentTypePlainText (Some PlainText) refResponders)
             (Ex.request "text/plain, application/json" None None)
             Ex.plainStruct Ex.recorder
    = (after Ex.recorder
         (jsonEvents (Ex.request "text/plain, application/json" None None)
                     ("{}" ++ nl)), Ret tt) /\
  writes (jsonEvents (Ex.request "text/plain, application/json" None None)
                     ("{}" ++ nl)) = ["{}" ++ nl].
Proof.
  split; [split; reflexivity|]. split; [reflexivity|].
  destruct (decline_tries_next_type Ref.ParseMediaType Ref.json_Encode
              Ref.renderer
              (SetResponder ContentTypePlainText (Some PlainText) refResponders)
              (Ex.request "text/plain, application/json" None None)
              Ex.plainStruct Ex.recorder eq_refl) as [_ Hex].
  destruct (Hex ("{}" ++ nl) eq_refl eq_refl eq_refl eq_refl
                (or_introl eq_refl) eq_refl
                (conj eq_refl eq_refl) eq_refl) as [Hrun [Hw _]].
  split; [exact Hrun | exact Hw].
Defined.





(** C5 at a channel of two items, buffered for application/json, whose
    context is cancelled after the first: the 504 response and then the
    JSON encoding of nil. *)
Lemma cancelled_buffering_writes_two_bodies_witness :
  writes (log (fst
    (refRespond refResponders
       (Ex.request "application/json" None (Some 1%nat))
       (VChan [VString "a"; VString "b"] true) Ex.recorder)))
    = ["Server Timeout" ++ nl; "null" ++ nl] /\
  statuses (log (fst
    (refRespond refResponders
       (Ex.request "application/json" None (Some 1%nat))
       (VChan [VString "a"; VString "b"] true) Ex.recorder)))
    = [504].
Proof.
  assert (Hl : is_slice (CTS.Types (refAccepted
            (Ex.request "application/json" None (Some 1%nat))))).
  { unfold is_slice, int_max. vm_compute. discriminate. }
  assert (Hall : answeredByJSON Ref.json_Encode refResponders
            (CTS.Types (refAccepted
               (Ex.request "application/json" None (Some 1%nat))))).
  { constructor; [split; [reflexivity | right; reflexivity] | constructor]. }
  destruct (cancelled_buffering_writes_two_bodies Ref.ParseMediaType
              Ref.json_Encode Ref.renderer refResponders
              (Ex.request "application/json" None (Some 1%nat))
              [VString "a"; VString "b"] true ("null" ++ nl) Ex.recorder
              eq_refl Hl Hall eq_refl eq_refl) as [Hrun _].
  rewrite Hrun. split; reflexivity.
Defined.

(** C6 at text/xml: after [SetResponder(text/xml, nil)] the type is still
    supported, and a request for it panics; after [SetDecoder(text/xml,
    nil)] the type is still a supported decoder. *)
Lemma nil_registration_keeps_the_key_witness :
  CTS.Types (SupportedResponders Ref.ParseMediaType
               (SetResponder ContentTypeXML None refResponders))
    = ["*/*"; "application/json"; "text/event-stream"; "text/xml"] /\
  CTS.Has (SupportedDecoders Ref.ParseMediaType
             (SetDecoder ContentTypeXML None refDecoders)) ContentTypeXML
    = true /\
  refRespond (SetResponder ContentTypeXML None refResponders)
             (Ex.request "text/xml" None None) (VString "x") Ex.recorder
    = (Ex.recorder, Panic "invalid memory address or nil pointer dereference").
Proof.
  destruct (nil_registration_keeps_the_key Ref.ParseMediaType Ref.renderer
              refResponders refDecoders ContentTypeXML eq_refl)
    as [_ [Hd [Hcall _]]].
  split; [vm_compute; reflexivity|]. split; [exact Hd|].
  exact (proj1 (Hcall (Ex.request "text/xml" None None) (VString "x")
                  Ex.recorder eq_refl eq_refl eq_refl)).
Defined.

(** * The further properties at the reference codecs *)

(** X3 at a set of two types. *)
Lemma walk_visits_entries_in_order_witness :
  exists q,
    walkSet 3 (Some (CTS.mk ["text/xml"; "text/html"] (-1)))
      = Some (["text/xml"; "text/html"], q) /\
    (exists q', walkSet 3 q = Some ([], q')) /\
    walkSet 3 (CTS.Reset q) = Some (["text/xml"; "text/html"], q).
Proof.
  apply (walk_visits_entries_in_order ["text/xml"; "text/html"] 3).
  - unfold int_max. simpl. lia.
  - simpl. lia.
Defined.

(** X5 at a list that names text/xml twice. *)
Lemma String_Split_round_trip_witness :
  CTS.String_ (SetOfContentTypes ["text/xml"; "application/json"; "text/xml"])
    = "text/xml,application/json" /\
  NewContentTypeSet Ref.ParseMediaType
    (Split (CTS.String_
              (SetOfContentTypes ["text/xml"; "application/json"; "text/xml"]))
           ",")
    = SetOfContentTypes ["text/xml"; "application/json"; "text/xml"].
Proof.
  split; [reflexivity|].
  apply (String_Split_round_trip Ref.ParseMediaType
           ["text/xml"; "application/json"; "text/xml"]).
  - discriminate.
  - repeat constructor.
  - repeat constructor.
Defined.

(** X6: a set built from a field with a quality value finds the type in
    capitals, and not a string that does not parse. *)
Lemma StringHas_finds_what_was_given_witness :
  StringHas Ref.ParseMediaType
    (NewContentTypeSet Ref.ParseMediaType ["text/html;q=0.9"; "@"])
    "text/html;q=0.9" = true /\
  StringHas Ref.ParseMediaType
    (NewContentTypeSet Ref.ParseMediaType ["text/html;q=0.9"; "@"]) "@" = false.
Proof.
  destruct (StringHas_finds_what_was_given Ref.ParseMediaType
              ["text/html;q=0.9"; "@"] "text/html;q=0.9") as [_ [_ Hin]].
  destruct (StringHas_finds_what_was_given Ref.ParseMediaType
              ["text/html;q=0.9"; "@"] "@") as [_ [Hout _]].
  split.
  - apply Hin; [left | discriminate].
  - apply Hout. reflexivity.
Defined.

(** X7 at the registries of the package at startup. *)
Lemma Supported_sorted_snapshot_witness :
  StronglySorted string_le
    (CTS.Types (SupportedResponders Ref.ParseMediaType refResponders)) /\
  CTS.Types (SupportedResponders Ref.ParseMediaType refResponders)
    = ["*/*"; "application/json"; "text/event-stream"; "text/xml"] /\
  CTS.Types (SupportedDecoders Ref.ParseMediaType refDecoders)
    = ["application/json"; "text/xml"].
Proof.
  assert (H1 : forall t, is_Some (refResponders !! t) ->
                         canonical Ref.ParseMediaType t).
  { intros t Ht. apply keys_elem in Ht.
    assert (Hk : Forall (canonical Ref.ParseMediaType)
                        (map_to_list refResponders).*1)
      by (vm_compute; repeat constructor).
    rewrite Forall_forall in Hk. now apply Hk. }
  assert (H2 : forall t, is_Some (refDecoders !! t) ->
                         canonical Ref.ParseMediaType t).
  { intros t Ht. apply keys_elem in Ht.
    assert (Hk : Forall (canonical Ref.ParseMediaType)
                        (map_to_list refDecoders).*1)
      by (vm_compute; repeat constructor).
    rewrite Forall_forall in Hk. now apply Hk. }
  destruct (Supported_sorted_snapshot Ref.ParseMediaType refResponders
              refDecoders H1 H2) as [[Hs _] _].
  split; [exact Hs|]. split; vm_compute; reflexivity.
Defined.

(** X8: registering XML for application/json, which has an entry. *)
Lemma registering_again_keeps_supported_witness :
  SupportedResponders Ref.ParseMediaType
    (SetResponder ContentTypeJSON (Some (XML Ref.xml_Marshal)) refResponders)
    = SupportedResponders Ref.ParseMediaType refResponders.
Proof.
  refine (proj1 (registering_again_keeps_supported Ref.ParseMediaType
                   refResponders refDecoders ContentTypeJSON
                   (Some (XML Ref.xml_Marshal)) None None) _).
  exists (Some (JSON Ref.json_Encode)). reflexivity.
Defined.

(** X9: application/pdf has no entry and the event stream is passed over
    for a string, so text/xml answers before application/json. *)
Lemma first_registered_type_answers_witness :
  refRespond refResponders
    (Ex.request "application/pdf, text/event-stream, text/xml, application/json"
                None None)
    (VString "x") Ex.recorder
  = (mkWriter true
       [SetHeader "X-Content-Type-Options" "nosniff";
        SetHeader "Content-Type" "application/xml; charset=utf-8";
        Write xml_Header; Write "<string>x</string>"], Ret tt).
Proof.
  apply (first_registered_type_answers Ref.ParseMediaType Ref.renderer
           refResponders _ (VString "x")
           ["application/pdf"; "text/event-stream"] ["application/json"]
           "text/xml" (XML Ref.xml_Marshal) Ex.recorder).
  - reflexivity.
  - reflexivity.
  - unfold is_slice, int_max. simpl. lia.
  - constructor; [right; reflexivity|].
    constructor; [left; reflexivity | constructor].
  - reflexivity.
  - reflexivity.
  - reflexivity.
Defined.

(** X10: a struct that XML cannot marshal, for a client that accepts
    text/xml before application/json. *)
Lemma other_error_is_terminal_witness :
  refRespond refResponders
    (Ex.request "text/xml, application/json" None None)
    Ex.plainStruct Ex.recorder
  = (after Ex.recorder
       (errorEvents "XML marshal: xml: unsupported type" 500), Ret tt) /\
  resp_Code (Result (errorEvents "XML marshal: xml: unsupported type" 500))
    = 500.
Proof.
  destruct (other_error_is_terminal Ref.ParseMediaType Ref.xml_Marshal
              Ref.renderer refResponders
              (Ex.request "text/xml, application/json" None None)
              Ex.plainStruct [] ["application/json"] "text/xml" Ex.recorder
              eq_refl eq_refl) as [_ Hxml].
  - unfold is_slice, int_max. simpl. lia.
  - constructor.
  - reflexivity.
  - destruct (Hxml (ErrNew "xml: unsupported type") eq_refl eq_refl eq_refl)
      as [Hrun [Hcode _]].
    split; [exact Hrun | exact Hcode].
Defined.

(** X11: a channel of two strings that closes, for a client that accepts
    application/json. *)
Lemma closed_channel_is_answered_as_slice_witness :
  refRespond refResponders (Ex.request "application/json" None None)
             (VChan [VString "a"; VString "b"] true) Ex.recorder
  = (mkWriter true
       [Recv (VString "a"); Recv (VString "b");
        SetHeader "X-Content-Type-Options" "nosniff";
        SetHeader "Content-Type" "application/json; charset=utf-8";
        Write ("[" ++ dq ++ "a" ++ dq ++ "," ++ dq ++ "b" ++ dq ++ "]" ++ nl)],
     Ret tt).
Proof.
  assert (Hl : is_slice (CTS.Types (refAccepted
            (Ex.request "application/json" None None)))).
  { unfold is_slice, int_max. vm_compute. discriminate. }
  assert (Hall : answeredByJSON Ref.json_Encode refResponders
            (CTS.Types (refAccepted (Ex.request "application/json" None None)))).
  { constructor; [split; [reflexivity | right; reflexivity] | constructor]. }
  destruct (closed_channel_is_answered_as_slice Ref.ParseMediaType
              Ref.json_Encode Ref.renderer refResponders
              (Ex.request "application/json" None None)
              [VString "a"; VString "b"] true Ex.recorder
              eq_refl eq_refl Hl) as [_ [_ [Hjson _]]].
  exact (Hjson ("[" ++ dq ++ "a" ++ dq ++ "," ++ dq ++ "b" ++ dq ++ "]" ++ nl)
               Hall eq_refl eq_refl).
Defined.

(** X12: the event stream comes second in the Accept header and the
    request carries the status hint 404; the channel is streamed with
    status 200. *)
Lemma channel_is_streamed_when_accepted_witness :
  writes (log (fst
    (refRespond refResponders
       (Ex.request "application/json, text/event-stream" (Some 404) None)
       Ex.threeItems Ex.recorder)))
    = [frame_data (dq ++ "1" ++ dq); frame_data (dq ++ "2" ++ dq);
       frame_data (dq ++ "3" ++ dq); frame_EOF] /\
  resp_Code (Result (log (fst
    (refRespond refResponders
       (Ex.request "application/json, text/event-stream" (Some 404) None)
       Ex.threeItems Ex.recorder)))) = 200.
Proof.
  destruct (channel_is_streamed_when_accepted Ref.ParseMediaType
              Ref.json_Marshal Ref.renderer refResponders
              (Ex.request "application/json, text/event-stream" (Some 404) None)
              [VString "1"; VString "2"; VString "3"] true false Ex.recorder
              eq_refl eq_refl eq_refl) as [Hrun [Hcode _]].
  unfold Ex.threeItems. rewrite Hrun. split; [reflexivity | exact Hcode].
Defined.

(** X13 at a text marshaler that fails: [PlainText] returns its error
    and the sink is as before. *)
Lemma builtin_responders_fail_before_writing_witness :
  PlainText Ex.bare
    (VObj (mkObj "broken" (Some (Err (ErrNew "no text"))) None)) Ex.recorder
    = (Ex.recorder, Ret (Some (ErrNew "no text"))) /\
  fst (PlainText Ex.bare
         (VObj (mkObj "broken" (Some (Err (ErrNew "no text"))) None))
         Ex.recorder) = Ex.recorder.
Proof.
  split; [reflexivity|].
  refine (proj1 (builtin_responders_fail_before_writing
                   Ref.json_Encode Ref.xml_Marshal PlainText Ex.bare
                   (VObj (mkObj "broken" (Some (Err (ErrNew "no text"))) None))
                   Ex.recorder _ (Some (ErrNew "no text"))
                   (or_intror (or_intror (or_introl eq_refl))) eq_refl) _).
  discriminate.
Defined.

(** X14: two hints, 500 then 201, and a JSON answer. *)
Lemma status_hint_is_the_status_witness :
  resp_Code (Result (log (fst
    (JSON Ref.json_Encode (Status (Status Ex.bare 500) 201) (VString "x")
          (mkWriter true []))))) = 201.
Proof.
  apply (status_hint_is_the_status Ref.ParseMediaType Ref.json_Encode
           Ref.xml_Marshal (JSON Ref.json_Encode) Ex.bare 500 201 (VString "x")
           true).
  - lia.
  - left. reflexivity.
  - reflexivity.
Defined.

(** X15: text/xml forced on a request that accepts application/json. *)
Lemma SetContentType_overrides_headers_witness :
  SetContentType ContentTypeXML
    (fun r' => refRespond refResponders r' (VString "x"))
    (Ex.request "application/json" None None) Ex.recorder
  = (mkWriter true
       [SetHeader "X-Content-Type-Options" "nosniff";
        SetHeader "Content-Type" "application/xml; charset=utf-8";
        Write xml_Header; Write "<string>x</string>"], Ret tt) /\
  refAccepted (withContentType "" (Ex.request "application/json" None None))
    = None.
Proof.
  destruct (SetContentType_overrides_headers Ref.ParseMediaType Ref.renderer
              refResponders (Ex.request "application/json" None None)
              ContentTypeXML (VString "x") Ex.recorder eq_refl) as [Hforce _].
  destruct (SetContentType_overrides_headers Ref.ParseMediaType Ref.renderer
              refResponders (Ex.request "application/json" None None)
              "" (VString "x") Ex.recorder eq_refl) as [_ Hempty].
  split.
  - destruct (Hforce eq_refl) as [_ [_ Hrun]].
    apply (Hrun (XML Ref.xml_Marshal)); reflexivity.
  - exact (proj1 (Hempty eq_refl)).
Defined.

(** X16: a decoder registered for application/yaml decodes a request of
    that type, parameters apart; a request without Content-Type header
    gets the error. *)
Lemma DefaultDecoder_uses_the_registered_decoder_witness :
  DefaultDecoder Ref.ParseMediaType
    (SetDecoder "application/yaml" (Some (fun body => Ok (VString body)))
                refDecoders)
    (mkRequest {[ "Content-Type" := "application/yaml; charset=utf-8" ]}
               None None None 1 "a: 1")
    = Ok (VString "a: 1") /\
  DefaultDecoder Ref.ParseMediaType refDecoders Ex.bare
    = Err (ErrNew
        "render: unable to automatically decode the request content type: ''").
Proof.
  split.
  - apply (DefaultDecoder_uses_the_registered_decoder Ref.ParseMediaType
             Ref.json_Decode Ref.xml_Decode refDecoders "application/yaml"
             (fun body => Ok (VString body)) None
             (mkRequest {[ "Content-Type" := "application/yaml; charset=utf-8" ]}
                        None None None 1 "a: 1")).
    reflexivity.
  - apply (DefaultDecoder_uses_the_registered_decoder Ref.ParseMediaType
             Ref.json_Decode Ref.xml_Decode refDecoders "application/yaml"
             (fun body => Ok (VString body)) None Ex.bare);
      reflexivity.
Defined.

(** X18: unsetting the event stream and XML with nil leaves the keys of
    the startup registry in place. *)
Lemma registrations_never_remove_a_key_witness :
  is_Some (registerAll [(ContentTypeEventStream, None); (ContentTypeXML, None)]
             refResponders !! ContentTypeEventStream) /\
  CTS.Has (SupportedResponders Ref.ParseMediaType
             (registerAll [(ContentTypeEventStream, None);
                           (ContentTypeXML, None)] refResponders))
          ContentTypeEventStream = true.
Proof.
  assert (H : is_Some (refResponders !! ContentTypeEventStream)).
  { eexists. reflexivity. }
  pose proof (registrations_never_remove_a_key Ref.ParseMediaType
                Ref.json_Encode Ref.json_Marshal Ref.xml_Marshal Ref.renderer
                [(ContentTypeEventStream, None); (ContentTypeXML, None)]
                refResponders ContentTypeEventStream H) as [H1 [H2 _]].
  split; [exact H1 | apply H2; reflexivity].
Defined.
